(** * update_takeout_metadata: date resolution, sidecar matching and the
      exiftool write of the Google Photos Takeout metadata updater

    A shallow embedding of [update_takeout_metadata.py].  Python values that
    [json.load] can produce are an inductive type, exceptions are an explicit
    [result], [pathlib] paths are a record of directory components and a
    name, and everything the script delegates to the platform (directory
    listing, [shutil.move], the [exiftool] subprocess, [repr] of floats and
    containers) is an interface the script's functions are parameterised by.

    Strings are Rocq [string]s and stand for ASCII text: the character
    classes below ([isspace], [isdigit], [lower_char]) are Python's on the
    code points below 128, and a code above 127 is an ordinary character
    that is neither a space, a digit nor a letter. *)

From Stdlib Require Import ZArith List String Ascii Bool Lia SpecFloat.
Import ListNotations.

Local Open Scope string_scope.
Local Open Scope Z_scope.

(** ** Exceptions and results *)

Inductive exn : Type :=
| TypeError | ValueError | AttributeError | KeyError | OverflowError
| OSError | RecursionError.

Inductive result (A : Type) : Type :=
| Ok (a : A)
| Raise (e : exn).
Arguments Ok {A} a.
Arguments Raise {A} e.

Definition bind {A B : Type} (m : result A) (k : A -> result B) : result B :=
  match m with
  | Ok a => k a
  | Raise e => Raise e
  end.

Declare Scope result_scope.
Delimit Scope result_scope with result.
Notation "x <- m ;; k" := (bind m (fun x => k))
  (at level 61, m at next level, right associativity) : result_scope.
Notation "' p <- m ;; k" := (bind m (fun x => match x with p => k end))
  (at level 61, p pattern, m at next level, right associativity) : result_scope.

(** [try: ... except Exception: return None] around a body that returns an
    optional value. *)
Definition except_None {A : Type} (m : result (option A)) : option A :=
  match m with
  | Ok v => v
  | Raise _ => None
  end.

(** ** Python strings *)

Definition ord (c : ascii) : Z := Z.of_nat (nat_of_ascii c).

(** [str.isspace] on one ASCII character: tab to carriage return, the four
    separators 28..31 and the space. *)
Definition isspace (c : ascii) : bool :=
  let n := ord c in
  ((9 <=? n) && (n <=? 13)) || ((28 <=? n) && (n <=? 32)).

(** The narrower class [int] skips around a literal: C's [isspace]. *)
Definition isspace_c (c : ascii) : bool :=
  let n := ord c in
  ((9 <=? n) && (n <=? 13)) || (n =? 32).

Definition isdigit (c : ascii) : bool :=
  let n := ord c in (48 <=? n) && (n <=? 57).

Definition digit_val (c : ascii) : Z := ord c - 48.

Definition lower_char (c : ascii) : ascii :=
  let n := ord c in
  if (65 <=? n) && (n <=? 90) then ascii_of_nat (Z.to_nat (n + 32)) else c.

Fixpoint lower (s : string) : string :=
  match s with
  | EmptyString => EmptyString
  | String c s' => String (lower_char c) (lower s')
  end.

(** [s.strip()] generalised over the character class it removes, so that
    [int] can share it. *)
Fixpoint lstrip_by (sp : ascii -> bool) (s : string) : string :=
  match s with
  | EmptyString => EmptyString
  | String c s' => if sp c then lstrip_by sp s' else s
  end.

Fixpoint rstrip_by (sp : ascii -> bool) (s : string) : string :=
  match s with
  | EmptyString => EmptyString
  | String c s' =>
      match rstrip_by sp s' with
      | EmptyString => if sp c then EmptyString else String c EmptyString
      | r => String c r
      end
  end.

Definition strip (s : string) : string :=
  rstrip_by isspace (lstrip_by isspace s).

Fixpoint startswith (s p : string) : bool :=
  match p, s with
  | EmptyString, _ => true
  | String _ _, EmptyString => false
  | String b p', String a s' => Ascii.eqb a b && startswith s' p'
  end.

Fixpoint endswith (s p : string) : bool :=
  match s with
  | EmptyString => String.eqb p EmptyString
  | String _ s' => String.eqb s p || endswith s' p
  end.

(** [sub in s] for two strings. *)
Fixpoint str_contains (sub s : string) : bool :=
  startswith s sub ||
  match s with
  | EmptyString => false
  | String _ s' => str_contains sub s'
  end.

(** [s.split()]: the maximal runs of non-whitespace characters. *)
Fixpoint split_ws (s : string) : list string :=
  match s with
  | EmptyString => []
  | String c s' =>
      if isspace c then split_ws s'
      else
        match s' with
        | String c' _ =>
            if isspace c' then String c EmptyString :: split_ws s'
            else
              match split_ws s' with
              | w :: ws => String c w :: ws
              | [] => [String c EmptyString]
              end
        | EmptyString => [String c EmptyString]
        end
  end.

(** [s.split(sep)] for a one-character separator. *)
Fixpoint split_on (sep : ascii) (s : string) : list string :=
  match s with
  | EmptyString => [EmptyString]
  | String c s' =>
      if Ascii.eqb c sep then EmptyString :: split_on sep s'
      else
        match split_on sep s' with
        | w :: ws => String c w :: ws
        | [] => [String c EmptyString]
        end
  end.

(** The digits of an integer literal: decimal digits, single underscores
    allowed between two digits. *)
Fixpoint int_digits (acc : Z) (after_digit : bool) (s : string) : option Z :=
  match s with
  | EmptyString => if after_digit then Some acc else None
  | String c s' =>
      if isdigit c then int_digits (10 * acc + digit_val c) true s'
      else if Ascii.eqb c "_" then
        if after_digit then int_digits acc false s' else None
      else None
  end.

(** [int(s)] for a string: surrounding whitespace is ignored, one sign is
    allowed, anything else raises [ValueError]. *)
Definition int_of_str (s : string) : result Z :=
  let body :=
    match rstrip_by isspace_c (lstrip_by isspace_c s) with
    | String "+" r => int_digits 0 false r
    | String "-" r => option_map Z.opp (int_digits 0 false r)
    | r => int_digits 0 false r
    end in
  match body with
  | Some n => Ok n
  | None => Raise ValueError
  end.

(** Decimal digits of a non-negative integer, most significant first. *)
Definition digit_char (d : Z) : ascii := ascii_of_nat (Z.to_nat (48 + d)).

Fixpoint dec_digits (fuel : nat) (n : Z) : string :=
  match fuel with
  | O => EmptyString
  | S fuel' =>
      if n <? 10 then String (digit_char n) EmptyString
      else dec_digits fuel' (n / 10) ++ String (digit_char (n mod 10)) EmptyString
  end.

Definition str_of_nonneg (n : Z) : string :=
  dec_digits (S (Z.to_nat (Z.log2 n))) n.

Fixpoint zeros (k : nat) : string :=
  match k with
  | O => EmptyString
  | S k' => String "0" (zeros k')
  end.

Definition zfill (width : nat) (s : string) : string :=
  zeros (width - String.length s) ++ s.

(** [f"{n:0{width}d}"]: zero padded to [width], the sign counted in the
    width. *)
Definition format_0d (width : nat) (n : Z) : string :=
  if n <? 0 then String "-" (zfill (width - 1) (str_of_nonneg (- n)))
  else zfill width (str_of_nonneg n).

(** ** Python values, as [json.load] produces them *)

#[warnings="-register-all"]
Inductive pyval : Type :=
| PNone
| PBool (b : bool)
| PInt (n : Z)
| PFloat (f : spec_float)
| PStr (s : string)
| PList (l : list pyval)
| PDict (d : list (string * pyval)).

(** Truth value of an object, as [if x:] tests it. *)
Definition truthy (v : pyval) : bool :=
  match v with
  | PNone => false
  | PBool b => b
  | PInt n => negb (n =? 0)
  | PFloat (S754_zero _) => false
  | PFloat _ => true
  | PStr s => negb (String.eqb s EmptyString)
  | PList l => match l with [] => false | _ => true end
  | PDict d => match d with [] => false | _ => true end
  end.

(** A dict is the list of its items in insertion order; a key is looked up
    from the front. *)
Fixpoint lookup (key : string) (d : list (string * pyval)) : option pyval :=
  match d with
  | [] => None
  | (k, v) :: d' => if String.eqb k key then Some v else lookup key d'
  end.

Definition is_str (key : string) (v : pyval) : bool :=
  match v with
  | PStr s => String.eqb s key
  | _ => false
  end.

(** [key in v] for a string [key]: key lookup in a dict, membership in a
    list, substring test in a string, [TypeError] for the rest. *)
Definition py_in (key : string) (v : pyval) : result bool :=
  match v with
  | PDict d => Ok (match lookup key d with Some _ => true | None => false end)
  | PList l => Ok (existsb (is_str key) l)
  | PStr s => Ok (str_contains key s)
  | _ => Raise TypeError
  end.

(** [v[key]] for a string [key]. *)
Definition getitem (v : pyval) (key : string) : result pyval :=
  match v with
  | PDict d => match lookup key d with Some x => Ok x | None => Raise KeyError end
  | _ => Raise TypeError
  end.

(** [v.get(key)]: only a dict has the method. *)
Definition py_get (v : pyval) (key : string) : result pyval :=
  match v with
  | PDict d => Ok (match lookup key d with Some x => x | None => PNone end)
  | _ => Raise AttributeError
  end.

(** [int(v)]. A float is truncated toward zero. *)
Definition int_of_float (f : spec_float) : result Z :=
  match f with
  | S754_zero _ => Ok 0
  | S754_nan => Raise ValueError
  | S754_infinity _ => Raise OverflowError
  | S754_finite s m e =>
      let a := if 0 <=? e then Z.pos m * 2 ^ e else Z.pos m / 2 ^ (- e) in
      Ok (if s then - a else a)
  end.

Definition py_int (v : pyval) : result Z :=
  match v with
  | PInt n => Ok n
  | PBool b => Ok (if b then 1 else 0)
  | PFloat f => int_of_float f
  | PStr s => int_of_str s
  | _ => Raise TypeError
  end.

(** ** [datetime] *)

Record datetime : Type := mkdatetime
  { year : Z; month : Z; day : Z; hour : Z; minute : Z; second : Z }.

Definition is_leap (y : Z) : bool :=
  (y mod 4 =? 0) && (negb (y mod 100 =? 0) || (y mod 400 =? 0)).

(** Length of a month, in a leap year or not. *)
Definition month_length (leap : bool) (m : Z) : Z :=
  if m =? 2 then (if leap then 29 else 28)
  else if (m =? 4) || (m =? 6) || (m =? 9) || (m =? 11) then 30
  else 31.

Definition days_in_month (y m : Z) : Z := month_length (is_leap y) m.

Definition valid_datetime (dt : datetime) : bool :=
  (1 <=? year dt) && (year dt <=? 9999) &&
  (1 <=? month dt) && (month dt <=? 12) &&
  (1 <=? day dt) && (day dt <=? days_in_month (year dt) (month dt)) &&
  (0 <=? hour dt) && (hour dt <=? 23) &&
  (0 <=? minute dt) && (minute dt <=? 59) &&
  (0 <=? second dt) && (second dt <=? 59).

(** [datetime.datetime(y, mo, d, h, mi, s)]: the constructor checks every
    field and raises [ValueError] on a field out of range. *)
Definition datetime_new (y mo d h mi s : Z) : result datetime :=
  let dt := mkdatetime y mo d h mi s in
  if valid_datetime dt then Ok dt else Raise ValueError.

(** [dt.strftime("%Y:%m:%d %H:%M:%S")].  The fields other than the year are
    two digits.  [%Y] is left to the C library: [pads_year] says whether
    the year comes back zero-padded to four digits, as the documentation
    of [datetime] shows it, or as the bare number, as CPython on glibc
    gives it (there [datetime(999, 1, 1).strftime("%Y")] is ["999"]). *)
Definition strftime (pads_year : bool) (dt : datetime) : string :=
  format_0d (if pads_year then 4 else 1) (year dt) ++ ":" ++
  format_0d 2 (month dt) ++ ":" ++
  format_0d 2 (day dt) ++ " " ++ format_0d 2 (hour dt) ++ ":" ++
  format_0d 2 (minute dt) ++ ":" ++ format_0d 2 (second dt).

(** Proleptic Gregorian ordinals, 0001-01-01 being day 1, as [datetime]
    counts them. *)
Definition days_before_year (y : Z) : Z :=
  let y1 := y - 1 in y1 * 365 + y1 / 4 - y1 / 100 + y1 / 400.

Definition days_before_month (leap : bool) (m : Z) : Z :=
  let common :=
    match m with
    | 1 => 0 | 2 => 31 | 3 => 59 | 4 => 90 | 5 => 120 | 6 => 151
    | 7 => 181 | 8 => 212 | 9 => 243 | 10 => 273 | 11 => 304 | _ => 334
    end in
  common + (if (2 <? m) && leap then 1 else 0).

Definition ymd2ord (y m d : Z) : Z :=
  days_before_year y + days_before_month (is_leap y) m + d.

(** Month and day of the day number [n] of a year, the first day being
    number 0: an estimate of the month that is at most one too far, then a
    correction. *)
Definition yday2md (leap : bool) (n : Z) : Z * Z :=
  let m := (n + 50) / 32 in
  let preceding := days_before_month leap m in
  if n <? preceding then
    let m := m - 1 in
    let preceding := preceding - month_length leap m in
    (m, n - preceding + 1)
  else (m, n - preceding + 1).

(** Year, month and day of an ordinal: whole cycles of 400, 100, 4 and 1
    years are taken off in turn. *)
Definition ord2ymd (ordinal : Z) : Z * Z * Z :=
  let n := ordinal - 1 in
  let n400 := n / 146097 in
  let n := n mod 146097 in
  let n100 := n / 36524 in
  let n := n mod 36524 in
  let n4 := n / 1461 in
  let n := n mod 1461 in
  let n1 := n / 365 in
  let n := n mod 365 in
  let y := n400 * 400 + 1 + n100 * 100 + n4 * 4 + n1 in
  if (n1 =? 4) || (n100 =? 4) then (y - 1, 12, 31)
  else
    let leapyear := (n1 =? 3) && (negb (n4 =? 24) || (n100 =? 3)) in
    let '(m, d) := yday2md leapyear n in
    (y, m, d).

(** Seconds since 1970-01-01T00:00:00 of a UTC date and time. *)
Definition timegm (dt : datetime) : Z :=
  (ymd2ord (year dt) (month dt) (day dt) - 719163) * 86400 +
  hour dt * 3600 + minute dt * 60 + second dt.

(** [datetime.datetime.utcfromtimestamp(t)] for an integer [t], on a POSIX
    system: the UTC date and time [t] seconds after the epoch, negative [t]
    included.  A date outside the years 1..9999 is refused with an
    exception ([ValueError], or [OverflowError] far out of range; the
    properties below do not depend on which). *)
Definition utcfromtimestamp (t : Z) : result datetime :=
  let days := t / 86400 in
  let secs := t mod 86400 in
  let '(y, m, d) := ord2ymd (days + 719163) in
  if (1 <=? y) && (y <=? 9999)
  then Ok (mkdatetime y m d (secs / 3600) (secs mod 3600 / 60) (secs mod 60))
  else Raise ValueError.

(** ** Regular-expression searches

    [re.search] tries the pattern at every position from the left and
    returns the first match.  Both patterns of the script have a fixed
    length and no choice that overlaps, so matching at one position is a
    plain test of the characters there. *)

Fixpoint re_search {A : Type} (match_at : string -> option A) (s : string)
  : option A :=
  match match_at s with
  | Some m => Some m
  | None =>
      match s with
      | EmptyString => None
      | String _ s' => re_search match_at s'
      end
  end.

Definition str2 (a b : ascii) : string := String a (String b EmptyString).

(** [(\d{4})(\d{2})(\d{2})_(\d{2})(\d{2})(\d{2})] at the start of [s]: the
    six groups. *)
Definition match_timestamp (s : string) : option (list string) :=
  match s with
  | String y1 (String y2 (String y3 (String y4
    (String m1 (String m2 (String d1 (String d2
    (String u
    (String h1 (String h2 (String i1 (String i2 (String s1 (String s2 _))))))))))))))
    =>
      if forallb isdigit [y1; y2; y3; y4; m1; m2; d1; d2; h1; h2; i1; i2; s1; s2]
         && Ascii.eqb u "_"
      then Some [String y1 (String y2 (str2 y3 y4)); str2 m1 m2; str2 d1 d2;
                 str2 h1 h2; str2 i1 i2; str2 s1 s2]
      else None
  | _ => None
  end.

(** [(19|20)\d{2}] at the start of [s]: the matched text. *)
Definition match_year (s : string) : option string :=
  match s with
  | String a (String b (String c (String d _))) =>
      if ((Ascii.eqb a "1" && Ascii.eqb b "9") || (Ascii.eqb a "2" && Ascii.eqb b "0"))
         && isdigit c && isdigit d
      then Some (String a (String b (str2 c d)))
      else None
  | _ => None
  end.

(** ** Paths *)

(** A [pathlib] path of a file: the components of its directory, outermost
    first (["/"] first for an absolute path), and its final component. *)
Record path : Type := mkpath { parent : list string; name : string }.

(** [p.parent.name] *)
Definition parent_name (p : path) : string :=
  let d := last (parent p) EmptyString in
  if String.eqb d "/" then EmptyString else d.

(** Index of the last occurrence of a character. *)
Fixpoint rfind (c : ascii) (s : string) : option nat :=
  match s with
  | EmptyString => None
  | String a s' =>
      match rfind c s' with
      | Some i => Some (S i)
      | None => if Ascii.eqb a c then Some O else None
      end
  end.

(** Where the suffix of a name starts: the last dot, unless it is the first
    or the last character. *)
Definition suffix_index (n : string) : option nat :=
  match rfind "." n with
  | Some i => if ((0 <? i) && (i <? String.length n - 1))%nat then Some i else None
  | None => None
  end.

Definition suffix (p : path) : string :=
  match suffix_index (name p) with
  | Some i => substring i (String.length (name p) - i) (name p)
  | None => EmptyString
  end.

Definition stem (p : path) : string :=
  match suffix_index (name p) with
  | Some i => substring 0 i (name p)
  | None => name p
  end.

(** [p.with_suffix(sfx)] for a suffix such as [".jpg"]. *)
Definition with_suffix (p : path) (sfx : string) : result path :=
  if String.eqb (name p) EmptyString then Raise ValueError
  else Ok (mkpath (parent p) (stem p ++ sfx)).

Fixpoint join (sep : string) (l : list string) : string :=
  match l with
  | [] => EmptyString
  | [x] => x
  | x :: l' => x ++ sep ++ join sep l'
  end.

(** [str(p)] *)
Definition path_str (p : path) : string :=
  match parent p with
  | "/" :: ds => "/" ++ join "/" (ds ++ [name p])%list
  | ds => join "/" (ds ++ [name p])%list
  end.

(** ** The platform

    What the script leaves to the interpreter, the C library, the file
    system and the external tool. *)

Record CompletedProcess : Type := mkcompleted
  { returncode : Z; stdout : string; stderr : string }.

Class Platform : Type := {
  (** whether [strftime] zero-pads [%Y] *)
  strftime_pads_year : bool;
  (** [repr] of a float, a list or a dict *)
  py_repr : pyval -> string;
  (** the state of the file system and of whatever else the tool sees *)
  world : Type;
  (** the names in a directory, in the order the system lists them *)
  scandir : world -> list string -> list string;
  (** [shutil.move(src, dst)] *)
  shutil_move : path -> path -> world -> result (unit * world);
  (** [subprocess.run(cmd, capture_output=True, text=True)] *)
  subprocess_run : list string -> world -> result (CompletedProcess * world)
}.

(** Computations that read or change the world and may raise. *)
Definition io `{Platform} (A : Type) : Type := world -> result (A * world).

Definition ret `{Platform} {A : Type} (a : A) : io A := fun w => Ok (a, w).

Definition lift `{Platform} {A : Type} (r : result A) : io A :=
  fun w => match r with Ok a => Ok (a, w) | Raise e => Raise e end.

Definition bind_io `{Platform} {A B : Type} (m : io A) (k : A -> io B) : io B :=
  fun w => match m w with Ok (a, w') => k a w' | Raise e => Raise e end.

Declare Scope io_scope.
Delimit Scope io_scope with io.
Notation "x <- m ;; k" := (bind_io m (fun x => k))
  (at level 61, m at next level, right associativity) : io_scope.
Notation "m ;; k" := (bind_io m (fun _ => k))
  (at level 61, right associativity) : io_scope.

(** [str(v)], as an f-string renders a value. *)
Definition py_str `{Platform} (v : pyval) : string :=
  match v with
  | PStr s => s
  | PNone => "None"
  | PBool b => if b then "True" else "False"
  | PInt n => format_0d 0 n
  | _ => py_repr v
  end.

(** [key in v and v[key]], as a condition. *)
Definition key_truthy (key : string) (v : pyval) : result bool :=
  (c <- py_in key v ;;
   if c then x <- getitem v key ;; Ok (truthy x) else Ok false)%result.

(** Truth value of an optional string: [None] and the empty string are
    false. *)
Definition opt_truthy (o : option string) : bool :=
  match o with
  | Some s => negb (String.eqb s EmptyString)
  | None => false
  end.

(** ** The script *)

Definition UPDATE_FILE_TIMESTAMP : bool := true.

Definition MONTHS : list (string * Z) :=
  [("Jan", 1); ("Feb", 2); ("Mar", 3); ("Apr", 4);
   ("May", 5); ("Jun", 6); ("Jul", 7); ("Aug", 8);
   ("Sep", 9); ("Oct", 10); ("Nov", 11); ("Dec", 12)].

(** [MONTHS.get(key, default)] *)
Fixpoint MONTHS_get (key : string) (default : Z) (d : list (string * Z)) : Z :=
  match d with
  | [] => default
  | (k, v) :: d' => if String.eqb k key then v else MONTHS_get key default d'
  end.

(** [a, b, c = map(int, l)]: exactly three items, each an integer. *)
Definition unpack3_int (l : list string) : result (Z * Z * Z) :=
  match l with
  | [a; b; c] =>
      (x <- int_of_str a ;; y <- int_of_str b ;; z <- int_of_str c ;;
       Ok (x, y, z))%result
  | _ => Raise ValueError
  end.

(** The body of [parse_google_formatted], inside its [try]. *)
Definition parse_google_formatted_body `{Platform} (date_str : pyval)
  : result (option string) :=
  (s <- match date_str with PStr s => Ok s | _ => Raise AttributeError end ;;
   let parts := split_ws (strip s) in
   if (List.length parts <? 4)%nat then Ok None
   else
     day <- int_of_str (nth 0 parts EmptyString) ;;
     let month := MONTHS_get (nth 1 parts EmptyString) 0 MONTHS in
     year <- int_of_str (nth 2 parts EmptyString) ;;
     hms <- unpack3_int (split_on ":" (nth 3 parts EmptyString)) ;;
     let '(hour, minute, second) := hms in
     dt <- datetime_new year month day hour minute second ;;
     Ok (Some (strftime strftime_pads_year dt)))%result.

Definition parse_google_formatted `{Platform} (date_str : pyval)
  : option string :=
  except_None (parse_google_formatted_body date_str).

Definition extract_date_from_folder (file_path : path) : option string :=
  let folder_name := parent_name file_path in
  match re_search match_year folder_name with
  | Some group0 => Some (group0 ++ ":01:01 12:00:00")
  | None => None
  end.

Definition extract_date_from_filename (file_path : path) : option string :=
  match re_search match_timestamp (stem file_path) with
  | Some groups =>
      match map int_of_str groups with
      | [Ok year; Ok month; Ok day; Ok hour; Ok minute; Ok second] =>
          Some (format_0d 4 year ++ ":" ++ format_0d 2 month ++ ":" ++
                format_0d 2 day ++ " " ++ format_0d 2 hour ++ ":" ++
                format_0d 2 minute ++ ":" ++ format_0d 2 second)
      | _ => None
      end
  | None => None
  end.

Definition resolve_date `{Platform} (json_data : pyval) (file_path : path)
  : result (option string) :=
  (has_taken <- (if truthy json_data then py_in "photoTakenTime" json_data
                 else Ok false) ;;
   from_json <-
     (if has_taken then
        pt <- getitem json_data "photoTakenTime" ;;
        has_formatted <- key_truthy "formatted" pt ;;
        exif_date <-
          (if has_formatted then
             formatted <- getitem pt "formatted" ;;
             Ok (parse_google_formatted formatted)
           else Ok None) ;;
        if opt_truthy exif_date then Ok exif_date
        else
          has_timestamp <- key_truthy "timestamp" pt ;;
          if has_timestamp then
            timestamp <- getitem pt "timestamp" ;;
            seconds <- py_int timestamp ;;
            dt <- utcfromtimestamp seconds ;;
            Ok (Some (strftime strftime_pads_year dt))
          else Ok None
      else Ok None) ;;
   match from_json with
   | Some exif_date => Ok (Some exif_date)
   | None =>
       let date_from_filename := extract_date_from_filename file_path in
       if opt_truthy date_from_filename then Ok date_from_filename
       else Ok (extract_date_from_folder file_path)
   end)%result.

(** [directory.glob("*.json")]: the entries whose name ends in [.json], in
    listing order. *)
Definition glob_json `{Platform} (directory : list string) : io (list path) :=
  fun w =>
    Ok (map (mkpath directory)
            (filter (fun n => endswith n ".json") (scandir w directory)), w).

Definition find_matching_json `{Platform} (file_path : path)
  : io (option path) :=
  (let base_name := lower (strip (name file_path)) in
   entries <- glob_json (parent file_path) ;;
   ret (find (fun f => startswith (lower (name f)) base_name) entries))%io.

Inductive status : Type := UPDATED | SKIPPED | FAILED.

(** [l.append(x)] *)
Definition append {A : Type} (l : list A) (x : A) : list A := (l ++ [x])%list.

(** The triple [update_exif] returns: status, date used, error text. *)
Definition outcome : Type := status * option string * option string.

(** [update_exif].  [depth] is the number of nested calls the interpreter
    still allows: the function calls itself after a rename without any
    bound of its own, and Python ends a recursion that deep with
    [RecursionError]. *)
Fixpoint update_exif `{Platform} (depth : nat) (file_path : path)
  (json_data : pyval) : io outcome :=
  match depth with
  | O => lift (Raise RecursionError)
  | S depth' =>
    (resolved <- lift (resolve_date json_data file_path) ;;
     if negb (opt_truthy resolved)
     then ret (SKIPPED, None, Some "No date available")
     else
       let date_str := match resolved with Some d => d | None => EmptyString end in
       let cmd :=
         ["exiftool"; "-overwrite_original"; "-ignoreMinorErrors";
          "-DateTimeOriginal=" ++ date_str;
          "-CreateDate=" ++ date_str;
          "-ModifyDate=" ++ date_str] in
       let cmd :=
         if UPDATE_FILE_TIMESTAMP then append cmd ("-FileModifyDate=" ++ date_str)
         else cmd in
       cmd <- lift
         (if truthy json_data then
            geo_exif <- py_get json_data "geoDataExif" ;;
            geo <- (if truthy geo_exif then Ok geo_exif
                    else py_get json_data "geoData") ;;
            cmd <-
              (if truthy geo then
                 lat <- py_get geo "latitude" ;;
                 lon <- py_get geo "longitude" ;;
                 if truthy lat && truthy lon
                 then Ok (append (append cmd ("-GPSLatitude=" ++ py_str lat))
                                 ("-GPSLongitude=" ++ py_str lon))
                 else Ok cmd
               else Ok cmd) ;;
            has_description <- key_truthy "description" json_data ;;
            if has_description then
              description <- getitem json_data "description" ;;
              Ok (append cmd ("-ImageDescription=" ++ py_str description))
            else Ok cmd
          else Ok cmd)%result ;;
       let cmd := append cmd (path_str file_path) in
       result <- subprocess_run cmd ;;
       let stderr := strip (stderr result) in
       if str_contains "Not a valid HEIC" stderr
          || str_contains "Not a valid JPEG" stderr
       then
         new_file <- lift (with_suffix file_path ".jpg") ;;
         shutil_move file_path new_file ;;
         (if truthy json_data then
            old_json <- find_matching_json file_path ;;
            match old_json with
            | Some old_json =>
                let new_json :=
                  mkpath (parent new_file) (stem new_file ++ suffix old_json) in
                shutil_move old_json new_json
            | None => ret tt
            end
          else ret tt) ;;
         update_exif depth' new_file json_data
       else if str_contains "OtherImageStart" stderr
       then ret (SKIPPED, Some date_str, Some stderr)
       else if negb (returncode result =? 0)
       then ret (FAILED, Some date_str,
                 Some (if String.eqb stderr EmptyString
                       then "Exiftool failed" else stderr))
       else
         validate <- subprocess_run
           ["exiftool"; "-ignoreMinorErrors"; "-DateTimeOriginal"; "-s3";
            path_str file_path] ;;
         let actual := strip (stdout validate) in
         if negb (String.eqb actual date_str)
         then ret (FAILED, Some date_str,
                   Some ("Validation mismatch (read " ++ actual ++ ")"))
         else ret (UPDATED, Some date_str, None))%io
  end.

(** ** The run over a tree *)

(** The three counters of [main]. *)
Record counts : Type := mkcounts
  { updated : nat; skipped : nat; failed : nat }.

(** The number of files counted so far. *)
Definition counted (c : counts) : nat :=
  (updated c + skipped c + failed c)%nat.

Definition count_failed (c : counts) : counts :=
  mkcounts (updated c) (skipped c) (S (failed c)).

(** The branch on [status] after [update_exif] has returned. *)
Definition count_status (st : status) (c : counts) : counts :=
  match st with
  | UPDATED => mkcounts (S (updated c)) (skipped c) (failed c)
  | FAILED => count_failed c
  | SKIPPED => mkcounts (updated c) (S (skipped c)) (failed c)
  end.

(** What [main] asks of the system beyond the platform of [update_exif]:
    [json.load] of the file opened at a path, which gives the parsed value
    or raises (the file cannot be opened, the text is not JSON). *)
Class Loader `{Platform} : Type := {
  json_load : path -> world -> result pyval
}.

(** The files [main] works on: of the files [rglob] lists, those whose
    name in lower case does not end in [.json]. *)
Definition media_files (listed : list path) : list path :=
  filter (fun f => negb (endswith (lower (name f)) ".json")) listed.

(** The sidecar data [main] hands to [update_exif]: [None] without a
    sidecar, else what [json.load] returns. *)
Definition loaded `{Platform} `{!Loader} (json_file : option path)
  (w : world) (json_data : pyval) : Prop :=
  match json_file with
  | Some f => json_load f w = Ok json_data
  | None => json_data = PNone
  end.

(** One turn of the loop of [main] on a file: the world and the counters
    before and after.  The printed lines are left out.  [depth] is the
    recursion depth [update_exif] is called with.  When [update_exif]
    raises, the handler of [main] counts the file as failed; the interface
    of the platform does not say what the failed call left behind, so any
    world may follow. *)
Inductive file_step `{Platform} `{!Loader} (depth : nat) (file_path : path)
  : world -> counts -> world -> counts -> Prop :=
| step_unreadable (w w1 : world) (c : counts) (json_file : path) (e : exn) :
    find_matching_json file_path w = Ok (Some json_file, w1) ->
    json_load json_file w1 = Raise e ->
    file_step depth file_path w c w1 (count_failed c)
| step_outcome (w w1 w2 : world) (c : counts) (json_file : option path)
    (json_data : pyval) (st : status) (date_used error : option string) :
    find_matching_json file_path w = Ok (json_file, w1) ->
    loaded json_file w1 json_data ->
    update_exif depth file_path json_data w1
      = Ok ((st, date_used, error), w2) ->
    file_step depth file_path w c w2 (count_status st c)
| step_exception (w w1 w' : world) (c : counts) (json_file : option path)
    (json_data : pyval) (e : exn) :
    find_matching_json file_path w = Ok (json_file, w1) ->
    loaded json_file w1 json_data ->
    update_exif depth file_path json_data w1 = Raise e ->
    file_step depth file_path w c w' (count_failed c).

(** The loop of [main] over the files, in order. *)
Inductive main_loop `{Platform} `{!Loader} (depth : nat)
  : list path -> world -> counts -> world -> counts -> Prop :=
| loop_done (w : world) (c : counts) : main_loop depth [] w c w c
| loop_next (file_path : path) (rest : list path) (w w1 w2 : world)
    (c c1 c2 : counts) :
    file_step depth file_path w c w1 c1 ->
    main_loop depth rest w1 c1 w2 c2 ->
    main_loop depth (file_path :: rest) w c w2 c2.

(** ** A scripted platform

    A small concrete platform to run the script on: directories are lists
    of names, a move renames an entry where it stands, and the external tool
    answers from a prepared list, one answer per call. *)

Module Sim.

Record state : Type := mkstate
  { dirs : list (list string * list string);
    answers : list CompletedProcess }.

Fixpoint entries (directory : list string)
  (ds : list (list string * list string)) : list string :=
  match ds with
  | [] => []
  | (d, names) :: ds' =>
      if list_eq_dec string_dec d directory then names
      else entries directory ds'
  end.

Fixpoint rename_in (old new : string) (names : list string) : list string :=
  match names with
  | [] => []
  | n :: names' =>
      if String.eqb n old then new :: rename_in old new names'
      else if String.eqb n new then rename_in old new names'
      else n :: rename_in old new names'
  end.

Definition move (src dst : path) (w : state) : result (unit * state) :=
  if existsb (String.eqb (name src)) (entries (parent src) (dirs w)) then
    Ok (tt,
        mkstate
          (map (fun '(d, names) =>
                  if list_eq_dec string_dec d (parent src)
                  then (d, rename_in (name src) (name dst) names)
                  else (d, names))
               (dirs w))
          (answers w))
  else Raise OSError.

Definition run (cmd : list string) (w : state)
  : result (CompletedProcess * state) :=
  match answers w with
  | a :: rest => Ok (a, mkstate (dirs w) rest)
  | [] => Raise OSError
  end.

Definition platform (pads_year : bool) : Platform :=
  {| strftime_pads_year := pads_year;
     py_repr := fun _ => "<repr>";
     world := state;
     scandir := fun w d => entries d (dirs w);
     shutil_move := move;
     subprocess_run := run |}.

End Sim.

(** ** Vocabulary of the properties

    Names for the parts of the functions above that the properties speak
    about, and for the shapes of text they mention.  The parts are cut out
    of the definitions above; the lemmas [resolve_date_eq] and
    [update_exif_eq] put them back together. *)

(** Step 1 of [resolve_date]: the date the sidecar gives, [None] when the
    function goes on to the file name. *)
Definition sidecar_date `{Platform} (json_data : pyval)
  : result (option string) :=
  (has_taken <- (if truthy json_data then py_in "photoTakenTime" json_data
                 else Ok false) ;;
   if has_taken then
     pt <- getitem json_data "photoTakenTime" ;;
     has_formatted <- key_truthy "formatted" pt ;;
     exif_date <-
       (if has_formatted then
          formatted <- getitem pt "formatted" ;;
          Ok (parse_google_formatted formatted)
        else Ok None) ;;
     if opt_truthy exif_date then Ok exif_date
     else
       has_timestamp <- key_truthy "timestamp" pt ;;
       if has_timestamp then
         timestamp <- getitem pt "timestamp" ;;
         seconds <- py_int timestamp ;;
         dt <- utcfromtimestamp seconds ;;
         Ok (Some (strftime strftime_pads_year dt))
       else Ok None
   else Ok None)%result.

(** Steps 2 and 3 of [resolve_date]. *)
Definition filename_or_folder (file_path : path) : option string :=
  let date_from_filename := extract_date_from_filename file_path in
  if opt_truthy date_from_filename then date_from_filename
  else extract_date_from_folder file_path.

(** What the [formatted] sub-field of a [photoTakenTime] object yields. *)
Definition formatted_date `{Platform} (pt : list (string * pyval))
  : option string :=
  match lookup "formatted" pt with
  | Some formatted =>
      if truthy formatted then parse_google_formatted formatted else None
  | None => None
  end.

(** The fixed start of the write command. *)
Definition base_command (date_str : string) : list string :=
  ["exiftool"; "-overwrite_original"; "-ignoreMinorErrors";
   "-DateTimeOriginal=" ++ date_str;
   "-CreateDate=" ++ date_str;
   "-ModifyDate=" ++ date_str;
   "-FileModifyDate=" ++ date_str].

(** The command [update_exif] builds before it runs the tool. *)
Definition write_command `{Platform} (date_str : string) (json_data : pyval)
  (file_path : path) : result (list string) :=
  let cmd :=
    ["exiftool"; "-overwrite_original"; "-ignoreMinorErrors";
     "-DateTimeOriginal=" ++ date_str;
     "-CreateDate=" ++ date_str;
     "-ModifyDate=" ++ date_str] in
  let cmd :=
    if UPDATE_FILE_TIMESTAMP then append cmd ("-FileModifyDate=" ++ date_str)
    else cmd in
  (cmd <-
     (if truthy json_data then
        geo_exif <- py_get json_data "geoDataExif" ;;
        geo <- (if truthy geo_exif then Ok geo_exif
                else py_get json_data "geoData") ;;
        cmd <-
          (if truthy geo then
             lat <- py_get geo "latitude" ;;
             lon <- py_get geo "longitude" ;;
             if truthy lat && truthy lon
             then Ok (append (append cmd ("-GPSLatitude=" ++ py_str lat))
                             ("-GPSLongitude=" ++ py_str lon))
             else Ok cmd
           else Ok cmd) ;;
        has_description <- key_truthy "description" json_data ;;
        if has_description then
          description <- getitem json_data "description" ;;
          Ok (append cmd ("-ImageDescription=" ++ py_str description))
        else Ok cmd
      else Ok cmd) ;;
   Ok (append cmd (path_str file_path)))%result.

(** The rename of the file and of its sidecar after a format mismatch: the
    new path of the file. *)
Definition rename_to_jpg `{Platform} (file_path : path) (json_data : pyval)
  : io path :=
  (new_file <- lift (with_suffix file_path ".jpg") ;;
   shutil_move file_path new_file ;;
   (if truthy json_data then
      old_json <- find_matching_json file_path ;;
      match old_json with
      | Some old_json =>
          let new_json :=
            mkpath (parent new_file) (stem new_file ++ suffix old_json) in
          shutil_move old_json new_json
      | None => ret tt
      end
    else ret tt) ;;
   ret new_file)%io.

Definition format_mismatch (stderr : string) : bool :=
  str_contains "Not a valid HEIC" stderr
  || str_contains "Not a valid JPEG" stderr.

(** What [update_exif] does with the answer of the write, [retry] being the
    nested call. *)
Definition after_write `{Platform} (retry : path -> pyval -> io outcome)
  (file_path : path) (json_data : pyval) (date_str : string)
  (result : CompletedProcess) : io outcome :=
  (let stderr := strip (stderr result) in
   if format_mismatch stderr then
     new_file <- rename_to_jpg file_path json_data ;;
     retry new_file json_data
   else if str_contains "OtherImageStart" stderr
   then ret (SKIPPED, Some date_str, Some stderr)
   else if negb (returncode result =? 0)
   then ret (FAILED, Some date_str,
             Some (if String.eqb stderr EmptyString
                   then "Exiftool failed" else stderr))
   else
     validate <- subprocess_run
       ["exiftool"; "-ignoreMinorErrors"; "-DateTimeOriginal"; "-s3";
        path_str file_path] ;;
     let actual := strip (stdout validate) in
     if negb (String.eqb actual date_str)
     then ret (FAILED, Some date_str,
               Some ("Validation mismatch (read " ++ actual ++ ")"))
     else ret (UPDATED, Some date_str, None))%io.

(** The canonical shape [YYYY:MM:DD HH:MM:SS]: nineteen characters, digits
    and separators in their places. *)
Definition canonical_shape (s : string) : bool :=
  match list_ascii_of_string s with
  | [y1; y2; y3; y4; c1; m1; m2; c2; d1; d2; sp; h1; h2; c3; i1; i2; c4; s1; s2]
    =>
      forallb isdigit [y1; y2; y3; y4; m1; m2; d1; d2; h1; h2; i1; i2; s1; s2]
      && forallb (Ascii.eqb ":") [c1; c2; c3; c4] && Ascii.eqb sp " "
  | _ => false
  end.

(** The shape of a timestamp embedded in a file name: eight digits, an
    underscore, six digits. *)
Definition timestamp_shape (t : string) : bool :=
  match list_ascii_of_string t with
  | [y1; y2; y3; y4; m1; m2; d1; d2; u; h1; h2; i1; i2; s1; s2] =>
      forallb isdigit [y1; y2; y3; y4; m1; m2; d1; d2; h1; h2; i1; i2; s1; s2]
      && Ascii.eqb u "_"
  | _ => false
  end.

(** The digits of an embedded timestamp read as year, month, day, hour,
    minute and second, in canonical form. *)
Definition reformat_timestamp (t : string) : string :=
  substring 0 4 t ++ ":" ++ substring 4 2 t ++ ":" ++ substring 6 2 t ++ " " ++
  substring 9 2 t ++ ":" ++ substring 11 2 t ++ ":" ++ substring 13 2 t.

(** A directory entry qualifies as the sidecar of a media file name. *)
Definition qualifies (base_name : string) (entry : string) : bool :=
  endswith entry ".json" && startswith (lower entry) (lower base_name).

(** The geolocation object the write uses: [geoDataExif] when it is truthy,
    else [geoData]. *)
Definition selected_geo (d : list (string * pyval)) : pyval :=
  let geo_exif := match lookup "geoDataExif" d with Some x => x | None => PNone end in
  if truthy geo_exif then geo_exif
  else match lookup "geoData" d with Some x => x | None => PNone end.

(** The GPS flags of the write command for a geolocation object. *)
Definition gps_flags `{Platform} (geo : pyval) : result (list string) :=
  (if truthy geo then
     lat <- py_get geo "latitude" ;;
     lon <- py_get geo "longitude" ;;
     if truthy lat && truthy lon
     then Ok ["-GPSLatitude=" ++ py_str lat; "-GPSLongitude=" ++ py_str lon]
     else Ok []
   else Ok [])%result.

(** The description flag of the write command. *)
Definition description_flag `{Platform} (d : list (string * pyval))
  : list string :=
  match lookup "description" d with
  | Some x => if truthy x then ["-ImageDescription=" ++ py_str x] else []
  | None => []
  end.

(** The object [geo] has both coordinates, present and truthy. *)
Definition has_coordinates (geo lat lon : pyval) : Prop :=
  exists g, geo = PDict g /\
    lookup "latitude" g = Some lat /\ lookup "longitude" g = Some lon /\
    truthy lat = true /\ truthy lon = true.

(** The ten digit characters, and the checks that reading a group of
    digits as an integer and printing it back padded gives the group. *)
Definition digits10 : list ascii :=
  ["0"; "1"; "2"; "3"; "4"; "5"; "6"; "7"; "8"; "9"]%char.

Definition roundtrip2 (a b : ascii) : bool :=
  match int_of_str (str2 a b) with
  | Ok n => (0 <=? n) && (n <=? 99) && String.eqb (format_0d 2 n) (str2 a b)
  | Raise _ => false
  end.

Definition roundtrip4 (a b c d : ascii) : bool :=
  match int_of_str (String a (String b (str2 c d))) with
  | Ok n => (0 <=? n) && (n <=? 9999) &&
            String.eqb (format_0d 4 n) (String a (String b (str2 c d)))
  | Raise _ => false
  end.

(** The check that [yday2md] splits a day number into a month and a day of
    that month. *)
Definition yday2md_ok (leap : bool) (n : Z) : bool :=
  let '(m, d) := yday2md leap n in
  (1 <=? m) && (m <=? 12) && (1 <=? d) && (d <=? month_length leap m) &&
  (days_before_month leap m + d =? n + 1).

(** The timestamps of 0001-01-01T00:00:00 and 9999-12-31T23:59:59, the
    ends of what a [datetime] can hold. *)
Definition MIN_TIMESTAMP : Z := -62135596800.
Definition MAX_TIMESTAMP : Z := 253402300799.

(** The month abbreviations of [MONTHS], by month number. *)
Definition month_abbr (m : Z) : string :=
  match m with
  | 1 => "Jan" | 2 => "Feb" | 3 => "Mar" | 4 => "Apr" | 5 => "May"
  | 6 => "Jun" | 7 => "Jul" | 8 => "Aug" | 9 => "Sep" | 10 => "Oct"
  | 11 => "Nov" | _ => "Dec"
  end.

(** A date and time written as day, month abbreviation, year and time,
    with single spaces and no comma. *)
Definition plain_text (dt : datetime) : string :=
  format_0d 1 (day dt) ++ " " ++ month_abbr (month dt) ++ " " ++
  format_0d 1 (year dt) ++ " " ++ format_0d 2 (hour dt) ++ ":" ++
  format_0d 2 (minute dt) ++ ":" ++ format_0d 2 (second dt).

(** A word of [split]: not empty, no whitespace in it. *)
Definition is_word (s : string) : bool :=
  negb (String.eqb s EmptyString) &&
  forallb (fun c => negb (isspace c)) (list_ascii_of_string s).


(** ** Sample inputs

    Concrete files, sidecars and tool answers the properties are run on. *)

Definition glibc_like : Platform := Sim.platform false.
Definition padding : Platform := Sim.platform true.

Definition photos_2019 : list string := ["/"; "Takeout"; "Photos 2019"].
Definition photos : list string := ["/"; "Takeout"; "Photos"].

(** A sidecar with the given [photoTakenTime] object. *)
Definition sidecar_taken (pt : list (string * pyval)) : pyval :=
  PDict [("title", PStr "IMG.jpg"); ("photoTakenTime", PDict pt)].

Definition answer_mismatch : CompletedProcess :=
  mkcompleted 1 "" "Error: Not a valid HEIC (looks more like a JPEG)".

Definition answer_other_image_start : CompletedProcess :=
  mkcompleted 1 "" "Warning: [minor] Error reading OtherImageStart data in IFD0".

Definition answer_written : CompletedProcess :=
  mkcompleted 0 "    1 image files updated" "".

Definition answer_read (date_str : string) : CompletedProcess :=
  mkcompleted 0 date_str "".

(** A platform on which the tool answers every write with a format
    mismatch and every move succeeds; there is nothing else to it. *)
Definition stubborn : Platform :=
  {| strftime_pads_year := true;
     py_repr := fun _ => "<repr>";
     world := unit;
     scandir := fun _ _ => [];
     shutil_move := fun _ _ w => Ok (tt, w);
     subprocess_run := fun _ w => Ok (answer_mismatch, w) |}.

(** A loader for the scripted platform: the sidecar named [broken.jpg.json]
    is not JSON, every other one holds an empty [photoTakenTime]. *)
Definition sample_loader : Loader (H := padding) :=
  {| json_load := fun f _ =>
       if String.eqb (name f) "broken.jpg.json" then Raise ValueError
       else Ok (sidecar_taken []) |}.

(** * Properties *)

Ltac split_andb :=
  repeat match goal with
         | H : _ && _ = true |- _ => apply andb_prop in H; destruct H
         end.

(** ** The functions and their parts *)

Lemma resolve_date_eq `{Platform} (json_data : pyval) (file_path : path) :
  resolve_date json_data file_path =
  (from_json <- sidecar_date json_data ;;
   match from_json with
   | Some exif_date => Ok (Some exif_date)
   | None => Ok (filename_or_folder file_path)
   end)%result.
Proof.
  unfold resolve_date, sidecar_date, filename_or_folder.
  destruct (if truthy json_data then _ else _) as [has_taken|e];
    simpl; [|reflexivity].
  match goal with
  | |- bind ?m _ = _ => destruct m as [[d|]|e]; simpl; try reflexivity
  end.
  destruct (opt_truthy _); reflexivity.
Qed.

Lemma update_exif_eq `{Platform} (depth : nat) (file_path : path)
  (json_data : pyval) (w : world) :
  update_exif (S depth) file_path json_data w =
  (resolved <- lift (resolve_date json_data file_path) ;;
   if negb (opt_truthy resolved)
   then ret (SKIPPED, None, Some "No date available")
   else
     let date_str := match resolved with Some d => d | None => EmptyString end in
     cmd <- lift (write_command date_str json_data file_path) ;;
     result <- subprocess_run cmd ;;
     after_write (update_exif depth) file_path json_data date_str result)%io w.
Proof.
  cbn [update_exif]. unfold bind_io, lift.
  destruct (resolve_date json_data file_path) as [resolved|e]; [|reflexivity].
  destruct (negb (opt_truthy resolved)); [reflexivity|].
  cbv zeta. unfold write_command. cbv zeta.
  match goal with
  | |- match match ?inner with _ => _ end with _ => _ end = _ =>
      destruct inner as [cmd|e]; [|reflexivity]
  end.
  cbn [bind].
  destruct (subprocess_run _ w) as [[result w1]|e]; [|reflexivity].
  unfold after_write, format_mismatch, rename_to_jpg, bind_io, lift, ret.
  destruct (_ || _); [|reflexivity].
  destruct (with_suffix file_path ".jpg") as [new_file|e]; [|reflexivity].
  destruct (shutil_move file_path new_file w1) as [[[] w2]|e]; [|reflexivity].
  match goal with
  | |- match ?m with _ => _ end = _ => destruct m as [[[] w3]|e]; reflexivity
  end.
Qed.

Lemma find_matching_json_run `{Platform} (file_path : path) (w : world) :
  find_matching_json file_path w =
  Ok (option_map (mkpath (parent file_path))
        (find (qualifies (strip (name file_path)))
              (scandir w (parent file_path))), w).
Proof.
  unfold find_matching_json, glob_json, bind_io, ret.
  f_equal. f_equal.
  induction (scandir w (parent file_path)) as [|n l IH]; [reflexivity|].
  unfold qualifies in *. cbn [filter map find].
  destruct (endswith n ".json"); cbn [map find andb name]; [|exact IH].
  destruct (startswith _ _); [reflexivity|exact IH].
Qed.

Lemma opt_truthy_Some (d : string) :
  d <> EmptyString -> opt_truthy (Some d) = true.
Proof.
  intros Hd. unfold opt_truthy.
  destruct (String.eqb_spec d EmptyString); [contradiction|reflexivity].
Qed.

(** ** No date available *)



(** ** The answers of the write *)

(** C7: when the error output of the write contains "OtherImageStart" and
    no format-mismatch marker, the outcome is SKIPPED with the date and the
    error output, whatever the exit code of the tool. *)
Theorem other_image_start_is_skipped `{Platform} (depth : nat)
  (json_data : pyval) (file_path : path) (w w1 : world)
  (date_str : string) (cmd : list string) (result : CompletedProcess) :
  resolve_date json_data file_path = Ok (Some date_str) ->
  date_str <> EmptyString ->
  write_command date_str json_data file_path = Ok cmd ->
  subprocess_run cmd w = Ok (result, w1) ->
  format_mismatch (strip (stderr result)) = false ->
  str_contains "OtherImageStart" (strip (stderr result)) = true ->
  update_exif (S depth) file_path json_data w =
  Ok ((SKIPPED, Some date_str, Some (strip (stderr result))), w1).
Proof.
  intros Hdate Hne Hcmd Hrun Hmis Hother.
  rewrite update_exif_eq. unfold bind_io, lift.
  rewrite Hdate, (opt_truthy_Some _ Hne). cbn [negb].
  rewrite Hcmd, Hrun. unfold after_write.
  rewrite Hmis, Hother. reflexivity.
Qed.

Lemma other_image_start_is_skipped_witness :
  let file_path := mkpath photos_2019 "IMG.jpg" in
  let date_str := "2019:01:01 12:00:00" in
  let cmd := (base_command date_str ++ ["/Takeout/Photos 2019/IMG.jpg"])%list in
  let w := Sim.mkstate [(photos_2019, ["IMG.jpg"])] [answer_other_image_start] in
  let w1 := Sim.mkstate [(photos_2019, ["IMG.jpg"])] [] in
  returncode answer_other_image_start = 1 /\
  update_exif (H := padding) 1 file_path PNone w =
  Ok ((SKIPPED, Some date_str,
       Some "Warning: [minor] Error reading OtherImageStart data in IFD0"), w1).
Proof.
  intros file_path date_str cmd w w1.
  split; [reflexivity|].
  apply (other_image_start_is_skipped (H := padding) 0 PNone file_path w w1
           date_str cmd answer_other_image_start);
    [reflexivity | discriminate | reflexivity | reflexivity | reflexivity
    | reflexivity].
Defined.

(** C4, amended: after a format mismatch the file is moved to its name with
    the suffix [.jpg]; when the sidecar data is truthy and a sidecar still
    matches the old path it is moved to the new stem with its own suffix;
    the write is then run again on the new path and its outcome is the
    outcome of the call. *)
Theorem mismatch_renames_and_retries `{Platform} (depth : nat)
  (json_data : pyval) (file_path : path) (w w1 w2 w3 : world)
  (date_str : string) (cmd : list string) (result : CompletedProcess) :
  resolve_date json_data file_path = Ok (Some date_str) ->
  date_str <> EmptyString ->
  write_command date_str json_data file_path = Ok cmd ->
  subprocess_run cmd w = Ok (result, w1) ->
  format_mismatch (strip (stderr result)) = true ->
  name file_path <> EmptyString ->
  let new_file := mkpath (parent file_path) (stem file_path ++ ".jpg") in
  shutil_move file_path new_file w1 = Ok (tt, w2) ->
  (if truthy json_data then
     match find (qualifies (strip (name file_path)))
                (scandir w2 (parent file_path)) with
     | Some entry =>
         let old_json := mkpath (parent file_path) entry in
         shutil_move old_json
           (mkpath (parent file_path) (stem new_file ++ suffix old_json)) w2
         = Ok (tt, w3)
     | None => w3 = w2
     end
   else w3 = w2) ->
  update_exif (S depth) file_path json_data w =
  update_exif depth new_file json_data w3.
Proof.
  intros Hdate Hne Hcmd Hrun Hmis Hname new_file Hmove Hjson.
  rewrite update_exif_eq. unfold bind_io at 1 2 3, lift.
  rewrite Hdate, (opt_truthy_Some _ Hne). cbn [negb].
  rewrite Hcmd, Hrun. unfold after_write. rewrite Hmis.
  unfold rename_to_jpg, with_suffix, bind_io, lift, ret.
  destruct (String.eqb_spec (name file_path) EmptyString) as [E|_];
    [contradiction|].
  subst new_file. rewrite Hmove.
  destruct (truthy json_data).
  - rewrite find_matching_json_run.
    destruct (find _ _) as [entry|]; cbn [option_map].
    + cbv zeta in Hjson. cbn [parent]. rewrite Hjson. reflexivity.
    + subst w3. reflexivity.
  - subst w3. reflexivity.
Qed.

Lemma mismatch_renames_and_retries_witness :
  let file_path := mkpath photos_2019 "IMG.heic" in
  let json_data := sidecar_taken [] in
  let date_str := "2019:01:01 12:00:00" in
  let w := Sim.mkstate [(photos_2019, ["IMG.heic"; "IMG.heic.json"])]
             [answer_mismatch; answer_written; answer_read date_str] in
  let w3 := Sim.mkstate [(photos_2019, ["IMG.jpg"; "IMG.json"])]
              [answer_written; answer_read date_str] in
  update_exif (H := padding) 2 file_path json_data w =
  update_exif (H := padding) 1 (mkpath photos_2019 "IMG.jpg") json_data w3 /\
  update_exif (H := padding) 2 file_path json_data w =
  Ok ((UPDATED, Some date_str, None),
      Sim.mkstate [(photos_2019, ["IMG.jpg"; "IMG.json"])] []).
Proof.
  intros file_path json_data date_str w w3.
  split; [|reflexivity].
  apply (mismatch_renames_and_retries (H := padding) 1 json_data file_path w
           (Sim.mkstate [(photos_2019, ["IMG.heic"; "IMG.heic.json"])]
              [answer_written; answer_read date_str])
           (Sim.mkstate [(photos_2019, ["IMG.jpg"; "IMG.heic.json"])]
              [answer_written; answer_read date_str])
           w3 date_str
           (base_command date_str ++ ["/Takeout/Photos 2019/IMG.heic"])%list
           answer_mismatch);
    [reflexivity | discriminate | reflexivity | reflexivity | reflexivity
    | discriminate | reflexivity | reflexivity].
Defined.

(** C4 as stated fails: a sidecar whose JSON text is the empty object is
    matched, its data is falsy, and after the mismatch the file is renamed
    while the sidecar keeps its old name. *)
Lemma empty_sidecar_is_not_renamed :
  let file_path := mkpath photos_2019 "IMG.heic" in
  let date_str := "2019:01:01 12:00:00" in
  let w := Sim.mkstate [(photos_2019, ["IMG.heic"; "IMG.heic.json"])]
             [answer_mismatch; answer_written; answer_read date_str] in
  find_matching_json (H := padding) file_path w =
    Ok (Some (mkpath photos_2019 "IMG.heic.json"), w) /\
  update_exif (H := padding) 2 file_path (PDict []) w =
    Ok ((UPDATED, Some date_str, None),
        Sim.mkstate [(photos_2019, ["IMG.jpg"; "IMG.heic.json"])] []).
Proof.
  split; reflexivity.
Qed.

(** ** Sidecar matching *)

(** What [find_matching_json] computes: the first entry, in listing order
    of the directory of the media file, whose name ends in [.json] and, in
    lower case, starts with the lower-cased name of the media file stripped
    of leading and trailing whitespace; none when no entry is such; the
    world is left as it was. *)
Theorem find_matching_json_first_match `{Platform} (file_path : path)
  (w : world) :
  exists r, find_matching_json file_path w = Ok (r, w) /\
  match r with
  | Some f =>
      parent f = parent file_path /\
      exists before after,
        scandir w (parent file_path) = (before ++ name f :: after)%list /\
        qualifies (strip (name file_path)) (name f) = true /\
        forall n, In n before -> qualifies (strip (name file_path)) n = false
  | None =>
      forall n, In n (scandir w (parent file_path)) ->
                qualifies (strip (name file_path)) n = false
  end.
Proof.
  rewrite find_matching_json_run.
  eexists; split; [reflexivity|].
  induction (scandir w (parent file_path)) as [|n l IH]; cbn [find option_map].
  - intros n [].
  - destruct (qualifies (strip (name file_path)) n) eqn:Hq; cbn [option_map].
    + split; [reflexivity|]. exists [], l. cbn [name].
      split; [reflexivity|]. split; [exact Hq|]. intros m [].
    + destruct (find _ l) as [m|]; cbn [option_map] in *.
      * destruct IH as (Hp & before & after & Hl & Hm & Hbefore).
        split; [exact Hp|]. exists (n :: before), after.
        split; [rewrite Hl; reflexivity|]. split; [exact Hm|].
        intros k [<-|Hk]; [exact Hq|exact (Hbefore k Hk)].
      * intros k [<-|Hk]; [exact Hq|exact (IH k Hk)].
Qed.

(** C3 (the code does not do this): the docstring of [find_matching_json]
    promises any JSON file of the folder that starts with the file name,
    and [strip] is applied to the name of the media file only, not to the
    entries.  For a media file whose name begins with a space, an entry
    that ends in [.json] and starts with the full name is listed, and the
    function returns none. *)
Lemma leading_space_name_is_not_matched :
  let file_path := mkpath photos " IMG.jpg" in
  let w := Sim.mkstate [(photos, [" IMG.jpg"; " IMG.jpg.json"])] [] in
  In " IMG.jpg.json" (scandir (Platform := padding) w (parent file_path)) /\
  qualifies (name file_path) " IMG.jpg.json" = true /\
  find_matching_json (H := padding) file_path w = Ok (None, w).
Proof.
  split; [right; left; reflexivity|]. split; reflexivity.
Qed.

(** ** The write command *)

Lemma py_get_dict (d : list (string * pyval)) (key : string) :
  py_get (PDict d) key =
  Ok (match lookup key d with Some x => x | None => PNone end).
Proof. reflexivity. Qed.

Lemma key_truthy_dict (d : list (string * pyval)) (key : string) :
  key_truthy key (PDict d) =
  Ok (match lookup key d with Some x => truthy x | None => false end).
Proof.
  unfold key_truthy, py_in, getitem. cbn [bind].
  destruct (lookup key d); reflexivity.
Qed.

Lemma truthy_dict (d : list (string * pyval)) :
  d <> [] -> truthy (PDict d) = true.
Proof. destruct d; [contradiction|reflexivity]. Qed.

Lemma write_command_dict `{Platform} (date_str : string)
  (d : list (string * pyval)) (file_path : path) :
  d <> [] ->
  write_command date_str (PDict d) file_path =
  (gps <- gps_flags (selected_geo d) ;;
   Ok (base_command date_str ++ gps ++ description_flag d ++
       [path_str file_path])%list)%result.
Proof.
  intros Hd. unfold write_command.
  rewrite (truthy_dict d Hd), !py_get_dict. cbn [bind].
  rewrite key_truthy_dict. cbn [bind].
  replace (if truthy match lookup "geoDataExif" d with
                     | Some x => x | None => PNone end
           then Ok match lookup "geoDataExif" d with
                   | Some x => x | None => PNone end
           else Ok match lookup "geoData" d with
                   | Some x => x | None => PNone end)
    with (Ok (selected_geo d))
    by (unfold selected_geo; destruct (truthy _); reflexivity).
  cbn [bind]. unfold gps_flags, description_flag, getitem, append, base_command.
  cbn [UPDATE_FILE_TIMESTAMP].
  destruct (truthy (selected_geo d)); cbn [bind].
  2: { destruct (lookup "description" d) as [x|]; [destruct (truthy x)|];
       cbn [bind]; rewrite <- ?app_assoc; reflexivity. }
  destruct (py_get (selected_geo d) "latitude") as [lat|e]; [|reflexivity].
  destruct (py_get (selected_geo d) "longitude") as [lon|e]; [|reflexivity].
  cbn [bind].
  destruct (truthy lat && truthy lon); cbn [bind];
    (destruct (lookup "description" d) as [x|]; [destruct (truthy x)|]);
    cbn [bind]; rewrite <- ?app_assoc; reflexivity.
Qed.

Lemma gps_flags_spec `{Platform} (geo : pyval) :
  (truthy geo = false \/ exists g, geo = PDict g) ->
  exists gps, gps_flags geo = Ok gps /\
    ((exists lat lon,
        has_coordinates geo lat lon /\
        gps = ["-GPSLatitude=" ++ py_str lat; "-GPSLongitude=" ++ py_str lon])
     \/ ((forall lat lon, ~ has_coordinates geo lat lon) /\ gps = [])).
Proof.
  unfold gps_flags. intros [Hfalsy|[g ->]].
  - rewrite Hfalsy. exists []. split; [reflexivity|right].
    split; [|reflexivity].
    intros lat lon (g & -> & Hla & _). destruct g; discriminate.
  - destruct (truthy (PDict g)) eqn:Htg.
    2: { exists []. split; [reflexivity|right]. split; [|reflexivity].
         intros lat lon (g' & Hg' & Hla & _). injection Hg' as <-.
         destruct g; discriminate. }
    rewrite !py_get_dict. cbn [bind].
    destruct (lookup "latitude" g) as [lat|] eqn:Hlat.
    2: { exists []. split; [reflexivity|right]. split; [|reflexivity].
         intros lat lon (g' & Hg' & Hla & _). injection Hg' as <-.
         congruence. }
    destruct (lookup "longitude" g) as [lon|] eqn:Hlon.
    2: { exists []. split; [cbn [truthy]; rewrite andb_false_r; reflexivity|].
         right. split; [|reflexivity].
         intros lat' lon' (g' & Hg' & _ & Hlo & _). injection Hg' as <-.
         congruence. }
    destruct (truthy lat) eqn:Htlat; [destruct (truthy lon) eqn:Htlon|];
      cbn [andb].
    + eexists. split; [reflexivity|left]. exists lat, lon.
      split; [|reflexivity]. exists g. repeat split; assumption.
    + exists []. split; [reflexivity|right]. split; [|reflexivity].
      intros lat' lon' (g' & Hg' & _ & Hlo & _ & Hto). injection Hg' as <-.
      congruence.
    + exists []. split; [reflexivity|right]. split; [|reflexivity].
      intros lat' lon' (g' & Hg' & Hla & _ & Hta & _). injection Hg' as <-.
      congruence.
Qed.

(** C8: for a sidecar that is a non-empty object, the command the write
    runs is the fixed start, then the GPS flags, then the description flag
    if any, then the path; the two GPS flags are there exactly when the
    selected geolocation object ([geoDataExif] if truthy, else [geoData])
    has latitude and longitude both present and truthy, and a coordinate
    equal to zero is not truthy. *)
Theorem gps_flags_iff_both_coordinates `{Platform} (depth : nat)
  (d : list (string * pyval)) (file_path : path) (date_str : string)
  (w : world) :
  d <> [] ->
  resolve_date (PDict d) file_path = Ok (Some date_str) ->
  date_str <> EmptyString ->
  (truthy (selected_geo d) = false \/ exists g, selected_geo d = PDict g) ->
  exists gps,
    update_exif (S depth) file_path (PDict d) w =
    (result <- subprocess_run
                 (base_command date_str ++ gps ++ description_flag d ++
                  [path_str file_path])%list ;;
     after_write (update_exif depth) file_path (PDict d) date_str result)%io w
    /\ ((exists lat lon,
           has_coordinates (selected_geo d) lat lon /\
           gps = ["-GPSLatitude=" ++ py_str lat;
                  "-GPSLongitude=" ++ py_str lon])
        \/ ((forall lat lon, ~ has_coordinates (selected_geo d) lat lon) /\
            gps = []))
    /\ (forall s lon, ~ has_coordinates (selected_geo d) (PInt 0) lon /\
                      ~ has_coordinates (selected_geo d)
                          (PFloat (S754_zero s)) lon)
    /\ (forall s lat, ~ has_coordinates (selected_geo d) lat (PInt 0) /\
                      ~ has_coordinates (selected_geo d) lat
                          (PFloat (S754_zero s))).
Proof.
  intros Hd Hdate Hne Hgeo.
  destruct (gps_flags_spec (selected_geo d) Hgeo) as (gps & Hflags & Hgps).
  exists gps.
  split; [|split; [exact Hgps|split]].
  - rewrite update_exif_eq. unfold bind_io at 1 2, lift.
    rewrite Hdate, (opt_truthy_Some _ Hne). cbn [negb].
    rewrite (write_command_dict _ _ _ Hd), Hflags. reflexivity.
  - intros s lon.
    split; intros (g & _ & _ & _ & Hz & _); discriminate.
  - intros s lat.
    split; intros (g & _ & _ & _ & _ & Hz); discriminate.
Qed.

Lemma gps_flags_iff_both_coordinates_witness :
  let P : Platform := padding in
  let d := [("geoData", PDict [("latitude", PInt 51); ("longitude", PInt 0)])] in
  let file_path := mkpath photos_2019 "IMG.jpg" in
  let date_str := "2019:01:01 12:00:00" in
  let w : world := Sim.mkstate [(photos_2019, ["IMG.jpg"])] [] in
  resolve_date (PDict d) file_path = Ok (Some date_str) /\
  exists gps,
    update_exif 1 file_path (PDict d) w =
    (result <- subprocess_run
                 (base_command date_str ++ gps ++ description_flag d ++
                  [path_str file_path])%list ;;
     after_write (update_exif 0) file_path (PDict d) date_str result)%io w
    /\ ((exists lat lon,
           has_coordinates (selected_geo d) lat lon /\
           gps = ["-GPSLatitude=" ++ py_str lat;
                  "-GPSLongitude=" ++ py_str lon])
        \/ ((forall lat lon, ~ has_coordinates (selected_geo d) lat lon) /\
            gps = []))
    /\ (forall s lon, ~ has_coordinates (selected_geo d) (PInt 0) lon /\
                      ~ has_coordinates (selected_geo d)
                          (PFloat (S754_zero s)) lon)
    /\ (forall s lat, ~ has_coordinates (selected_geo d) lat (PInt 0) /\
                      ~ has_coordinates (selected_geo d) lat
                          (PFloat (S754_zero s))).
Proof.
  intros P d file_path date_str w.
  split; [reflexivity|].
  apply (gps_flags_iff_both_coordinates (H := P) 0 d file_path date_str w);
    [discriminate | reflexivity | discriminate
    | right; eexists; reflexivity].
Defined.

(** A sidecar as the export writes it for a photo without EXIF position:
    [geoDataExif] is a non-empty object of zeros, so it is the one selected,
    and the coordinates of [geoData] are not written. *)
Example zero_geoDataExif_hides_geoData :
  let zero := PFloat (S754_zero false) in
  let d := [("geoData", PDict [("latitude", PInt 51); ("longitude", PInt 7)]);
            ("geoDataExif", PDict [("latitude", zero); ("longitude", zero)])] in
  let date_str := "2019:01:01 12:00:00" in
  write_command (H := padding) date_str (PDict d) (mkpath photos_2019 "IMG.jpg")
  = Ok (base_command date_str ++ ["/Takeout/Photos 2019/IMG.jpg"])%list.
Proof. reflexivity. Qed.

(** ** Exceptions while the sidecar is read *)

Lemma sidecar_date_taken `{Platform} (d pt : list (string * pyval)) :
  lookup "photoTakenTime" d = Some (PDict pt) ->
  sidecar_date (PDict d) =
  match formatted_date pt with
  | Some exif_date =>
      if negb (String.eqb exif_date EmptyString) then Ok (Some exif_date)
      else
        match lookup "timestamp" pt with
        | Some timestamp =>
            if truthy timestamp then
              (seconds <- py_int timestamp ;;
               dt <- utcfromtimestamp seconds ;;
               Ok (Some (strftime strftime_pads_year dt)))%result
            else Ok None
        | None => Ok None
        end
  | None =>
      match lookup "timestamp" pt with
      | Some timestamp =>
          if truthy timestamp then
            (seconds <- py_int timestamp ;;
             dt <- utcfromtimestamp seconds ;;
             Ok (Some (strftime strftime_pads_year dt)))%result
          else Ok None
      | None => Ok None
      end
  end.
Proof.
  intros Hpt. unfold sidecar_date, formatted_date.
  assert (Hd : d <> []) by (intros ->; discriminate).
  rewrite (truthy_dict d Hd). unfold py_in, getitem at 1. rewrite Hpt.
  cbn [bind]. rewrite !key_truthy_dict. unfold getitem. cbn [bind].
  destruct (lookup "formatted" pt) as [formatted|]; cbn [bind opt_truthy].
  - destruct (truthy formatted); cbn [bind opt_truthy].
    + destruct (parse_google_formatted formatted) as [exif_date|];
        cbn [opt_truthy].
      * destruct (negb _); [reflexivity|].
        destruct (lookup "timestamp" pt) as [ts|]; cbn [bind]; [|reflexivity].
        destruct (truthy ts); reflexivity.
      * destruct (lookup "timestamp" pt) as [ts|]; cbn [bind]; [|reflexivity].
        destruct (truthy ts); reflexivity.
    + destruct (lookup "timestamp" pt) as [ts|]; cbn [bind]; [|reflexivity].
      destruct (truthy ts); reflexivity.
  - destruct (lookup "timestamp" pt) as [ts|]; cbn [bind]; [|reflexivity].
    destruct (truthy ts); reflexivity.
Qed.

(** C2, amended: an exception raised while the [formatted] text is parsed
    is caught inside [parse_google_formatted] and is a soft failure: the
    resolution goes on with the [timestamp] sub-field and, when that is
    absent or falsy, with the file name and the folder.  Whenever the
    [formatted] sub-field gives no date (it is absent or falsy, or its
    parse gave none or raised), an exception raised by the conversion of a
    present and truthy [timestamp], by [int] or by [utcfromtimestamp], is
    not caught: [resolve_date] raises it. *)
Theorem formatted_error_is_soft_timestamp_error_raises `{Platform}
  (d pt : list (string * pyval)) (file_path : path) :
  lookup "photoTakenTime" d = Some (PDict pt) ->
  (forall formatted e,
     lookup "formatted" pt = Some formatted ->
     truthy formatted = true ->
     parse_google_formatted_body formatted = Raise e ->
     resolve_date (PDict d) file_path =
       match lookup "timestamp" pt with
       | Some timestamp =>
           if truthy timestamp then
             (seconds <- py_int timestamp ;;
              dt <- utcfromtimestamp seconds ;;
              Ok (Some (strftime strftime_pads_year dt)))%result
           else Ok (filename_or_folder file_path)
       | None => Ok (filename_or_folder file_path)
       end)
  /\ (forall timestamp e',
        opt_truthy (formatted_date pt) = false ->
        lookup "timestamp" pt = Some timestamp ->
        truthy timestamp = true ->
        py_int timestamp = Raise e' ->
        resolve_date (PDict d) file_path = Raise e')
  /\ (forall timestamp seconds e',
        opt_truthy (formatted_date pt) = false ->
        lookup "timestamp" pt = Some timestamp ->
        truthy timestamp = true ->
        py_int timestamp = Ok seconds ->
        utcfromtimestamp seconds = Raise e' ->
        resolve_date (PDict d) file_path = Raise e').
Proof.
  intros Hpt.
  assert (Hres : opt_truthy (formatted_date pt) = false ->
    resolve_date (PDict d) file_path =
    match lookup "timestamp" pt with
    | Some timestamp =>
        if truthy timestamp then
          (seconds <- py_int timestamp ;;
           dt <- utcfromtimestamp seconds ;;
           Ok (Some (strftime strftime_pads_year dt)))%result
        else Ok (filename_or_folder file_path)
    | None => Ok (filename_or_folder file_path)
    end).
  { intros Hformatted.
    rewrite resolve_date_eq, (sidecar_date_taken d pt Hpt).
    assert (Hstep :
      (from_json <- match lookup "timestamp" pt with
                    | Some timestamp =>
                        if truthy timestamp then
                          (seconds <- py_int timestamp ;;
                           dt <- utcfromtimestamp seconds ;;
                           Ok (Some (strftime strftime_pads_year dt)))%result
                        else Ok None
                    | None => Ok None
                    end ;;
       match from_json with
       | Some x => Ok (Some x)
       | None => Ok (filename_or_folder file_path)
       end)%result =
      match lookup "timestamp" pt with
      | Some timestamp =>
          if truthy timestamp then
            (seconds <- py_int timestamp ;;
             dt <- utcfromtimestamp seconds ;;
             Ok (Some (strftime strftime_pads_year dt)))%result
          else Ok (filename_or_folder file_path)
      | None => Ok (filename_or_folder file_path)
      end).
    { destruct (lookup "timestamp" pt) as [ts|]; [|reflexivity].
      destruct (truthy ts); [|reflexivity].
      destruct (py_int ts) as [n|e1]; [|reflexivity]. cbn [bind].
      destruct (utcfromtimestamp n); reflexivity. }
    destruct (formatted_date pt) as [exif_date|].
    - cbn [opt_truthy] in Hformatted. rewrite Hformatted.
      exact Hstep.
    - exact Hstep. }
  split; [|split].
  - intros formatted e Hf Htf Hbody. apply Hres.
    unfold formatted_date, parse_google_formatted.
    rewrite Hf, Htf, Hbody. reflexivity.
  - intros ts e' Hformatted Hts Htts Hint.
    rewrite (Hres Hformatted), Hts, Htts, Hint. reflexivity.
  - intros ts n e' Hformatted Hts Htts Hint Hutc.
    rewrite (Hres Hformatted), Hts, Htts, Hint. cbn [bind].
    rewrite Hutc. reflexivity.
Qed.

Lemma formatted_error_is_soft_timestamp_error_raises_witness :
  let formatted := PStr "26 Jan 2023, 20:39:29" in
  let file_path := mkpath photos "IMG_20230126_203929.jpg" in
  (parse_google_formatted_body (H := padding) formatted = Raise ValueError /\
   resolve_date (H := padding)
     (PDict [("photoTakenTime", PDict [("formatted", formatted)])]) file_path
   = Ok (Some "2023:01:26 20:39:29")) /\
  resolve_date (H := padding)
    (sidecar_taken [("timestamp", PStr "abc")]) file_path
  = Raise ValueError /\
  resolve_date (H := padding)
    (sidecar_taken [("timestamp", PStr "253402300800")]) file_path
  = Raise ValueError.
Proof.
  intros formatted file_path.
  split; [split; [reflexivity|]|split].
  - exact (proj1 (formatted_error_is_soft_timestamp_error_raises
                    (H := padding)
                    [("photoTakenTime", PDict [("formatted", formatted)])]
                    [("formatted", formatted)] file_path eq_refl)
                 formatted ValueError eq_refl eq_refl eq_refl).
  - exact (proj1 (proj2 (formatted_error_is_soft_timestamp_error_raises
                    (H := padding)
                    [("title", PStr "IMG.jpg");
                     ("photoTakenTime", PDict [("timestamp", PStr "abc")])]
                    [("timestamp", PStr "abc")] file_path eq_refl))
                 (PStr "abc") ValueError eq_refl eq_refl eq_refl eq_refl).
  - exact (proj2 (proj2 (formatted_error_is_soft_timestamp_error_raises
                    (H := padding)
                    [("title", PStr "IMG.jpg");
                     ("photoTakenTime",
                      PDict [("timestamp", PStr "253402300800")])]
                    [("timestamp", PStr "253402300800")] file_path eq_refl))
                 (PStr "253402300800") 253402300800 ValueError
                 eq_refl eq_refl eq_refl eq_refl eq_refl).
Defined.

(** C2 as stated fails: a [timestamp] that is present and truthy but is not
    an integer makes [resolve_date] raise, although the file name holds a
    date that step 2 would have found. *)
Lemma bad_timestamp_raises :
  let json_data := sidecar_taken [("timestamp", PStr "abc")] in
  let file_path := mkpath photos "IMG_20230126_203929.jpg" in
  extract_date_from_filename file_path = Some "2023:01:26 20:39:29" /\
  resolve_date (H := padding) json_data file_path = Raise ValueError /\
  resolve_date (H := padding) json_data file_path
    <> Ok (extract_date_from_filename file_path).
Proof.
  split; [reflexivity|]. split; [reflexivity|discriminate].
Qed.

(** ** The formatted capture time *)

Lemma int_digits_trailing_comma (y : string) (acc : Z) (after_digit : bool) :
  int_digits acc after_digit (y ++ ",") = None.
Proof.
  revert acc after_digit.
  induction y as [|c y IH]; intros acc after_digit; [reflexivity|].
  cbn [String.append int_digits].
  destruct (isdigit c); [apply IH|].
  destruct (Ascii.eqb c "_"); [|reflexivity].
  destruct after_digit; [apply IH|reflexivity].
Qed.

Lemma lstrip_by_trailing_comma (y : string) :
  exists y', lstrip_by isspace_c (y ++ ",") = y' ++ ",".
Proof.
  induction y as [|c y IH]; [exists EmptyString; reflexivity|].
  cbn [String.append lstrip_by].
  destruct (isspace_c c); [exact IH|].
  exists (String c y). reflexivity.
Qed.

Lemma rstrip_by_trailing_comma (y : string) :
  rstrip_by isspace_c (y ++ ",") = y ++ ",".
Proof.
  induction y as [|c y IH]; [reflexivity|].
  cbn [String.append rstrip_by]. rewrite IH.
  destruct y; reflexivity.
Qed.

Lemma int_of_str_trailing_comma (y : string) :
  int_of_str (y ++ ",") = Raise ValueError.
Proof.
  unfold int_of_str.
  destruct (lstrip_by_trailing_comma y) as [y' ->].
  rewrite rstrip_by_trailing_comma.
  destruct y' as [|c y']; [reflexivity|].
  cbn [String.append].
  assert (Hrest : int_digits 0 false (String c (y' ++ ",")) = None)
    by apply (int_digits_trailing_comma (String c y')).
  destruct c as [[] [] [] [] [] [] [] []];
    try (rewrite Hrest; reflexivity);
    rewrite int_digits_trailing_comma; reflexivity.
Qed.

(** C1 (the code does not do this): a [formatted] text whose third field
    carries the comma of the documented form ["D Mon YYYY, HH:MM:SS"] is
    not parsed: [int] refuses the year with its comma, the exception is
    swallowed, and [parse_google_formatted] returns none. *)
Theorem formatted_with_comma_is_rejected `{Platform} (s y : string) :
  nth 2 (split_ws (strip s)) EmptyString = y ++ "," ->
  parse_google_formatted (PStr s) = None.
Proof.
  intros Hyear. unfold parse_google_formatted, parse_google_formatted_body.
  cbn [bind]. destruct (_ <? 4)%nat; [reflexivity|].
  destruct (int_of_str (nth 0 _ _)) as [day|e]; [|reflexivity].
  cbn [bind]. rewrite Hyear, int_of_str_trailing_comma. reflexivity.
Qed.

Lemma formatted_with_comma_is_rejected_witness :
  nth 2 (split_ws (strip "26 Jan 2023, 20:39:29")) EmptyString = "2023" ++ "," /\
  parse_google_formatted (H := padding) (PStr "26 Jan 2023, 20:39:29") = None.
Proof.
  split; [reflexivity|].
  apply (formatted_with_comma_is_rejected (H := padding)
           "26 Jan 2023, 20:39:29" "2023"); reflexivity.
Defined.

(** The documented example on the whole of [resolve_date]: with no other
    source the date is not found, with a [timestamp] beside it the
    timestamp decides, and only the text without the comma is read. *)
Example documented_example_is_not_resolved :
  let formatted := PStr "26 Jan 2023, 20:39:29" in
  let file_path := mkpath photos "IMG.jpg" in
  resolve_date (H := padding) (sidecar_taken [("formatted", formatted)])
    file_path = Ok None /\
  resolve_date (H := padding)
    (sidecar_taken [("formatted", formatted); ("timestamp", PStr "86400")])
    file_path = Ok (Some "1970:01:02 00:00:00") /\
  resolve_date (H := padding)
    (sidecar_taken [("formatted", PStr "26 Jan 2023 20:39:29");
                    ("timestamp", PStr "86400")])
    file_path = Ok (Some "2023:01:26 20:39:29").
Proof. repeat split; reflexivity. Qed.

(** ** The date in the file name *)

Lemma str_app_assoc (a b c : string) : (a ++ b) ++ c = a ++ b ++ c.
Proof. induction a as [|x a IH]; [reflexivity|cbn; now rewrite IH]. Qed.

Lemma str_length_app (a b : string) :
  String.length (a ++ b) = (String.length a + String.length b)%nat.
Proof. induction a as [|x a IH]; [reflexivity|cbn; now rewrite IH]. Qed.

Lemma isdigit_cases (c : ascii) : isdigit c = true -> In c digits10.
Proof.
  destruct c as [[] [] [] [] [] [] [] []]; intros H;
    try discriminate H; cbn; tauto.
Qed.


Lemma roundtrip2_digits (a b : ascii) :
  isdigit a = true -> isdigit b = true -> roundtrip2 a b = true.
Proof.
  intros Ha Hb.
  assert (Hall : forallb (fun a => forallb (roundtrip2 a) digits10) digits10
                 = true) by (vm_compute; reflexivity).
  rewrite forallb_forall in Hall.
  specialize (Hall a (isdigit_cases a Ha)).
  rewrite forallb_forall in Hall. exact (Hall b (isdigit_cases b Hb)).
Qed.

Lemma roundtrip4_digits (a b c d : ascii) :
  isdigit a = true -> isdigit b = true -> isdigit c = true ->
  isdigit d = true -> roundtrip4 a b c d = true.
Proof.
  intros Ha Hb Hc Hd.
  assert (Hall :
    forallb (fun a => forallb (fun b => forallb (fun c =>
      forallb (roundtrip4 a b c) digits10) digits10) digits10) digits10
    = true) by (vm_compute; reflexivity).
  rewrite forallb_forall in Hall.
  specialize (Hall a (isdigit_cases a Ha)).
  rewrite forallb_forall in Hall.
  specialize (Hall b (isdigit_cases b Hb)).
  rewrite forallb_forall in Hall.
  specialize (Hall c (isdigit_cases c Hc)).
  rewrite forallb_forall in Hall. exact (Hall d (isdigit_cases d Hd)).
Qed.

Lemma group2_roundtrip (a b : ascii) :
  isdigit a = true -> isdigit b = true ->
  exists n, int_of_str (str2 a b) = Ok n /\ 0 <= n <= 99 /\
            format_0d 2 n = str2 a b.
Proof.
  intros Ha Hb. pose proof (roundtrip2_digits a b Ha Hb) as H.
  unfold roundtrip2 in H.
  destruct (int_of_str (str2 a b)) as [n|e]; [|discriminate H].
  split_andb. exists n. split; [reflexivity|].
  split; [lia|]. now apply String.eqb_eq.
Qed.

Lemma group4_roundtrip (a b c d : ascii) :
  isdigit a = true -> isdigit b = true -> isdigit c = true ->
  isdigit d = true ->
  exists n, int_of_str (String a (String b (str2 c d))) = Ok n /\
            0 <= n <= 9999 /\
            format_0d 4 n = String a (String b (str2 c d)).
Proof.
  intros Ha Hb Hc Hd. pose proof (roundtrip4_digits a b c d Ha Hb Hc Hd) as H.
  unfold roundtrip4 in H.
  destruct (int_of_str _) as [n|e]; [|discriminate H].
  split_andb. exists n. split; [reflexivity|].
  split; [lia|]. now apply String.eqb_eq.
Qed.

(** [re_search] returns the match at the leftmost position that has one. *)
Lemma re_search_leftmost {A : Type} (match_at : string -> option A)
  (s : string) (m : A) :
  re_search match_at s = Some m ->
  exists pre rest, s = pre ++ rest /\ match_at rest = Some m /\
    forall pre' rest', s = pre' ++ rest' ->
      (String.length pre' < String.length pre)%nat -> match_at rest' = None.
Proof.
  induction s as [|c s IH]; cbn [re_search]; intros Hs.
  - destruct (match_at EmptyString) as [m'|] eqn:E; [|discriminate Hs].
    exists EmptyString, EmptyString. split; [reflexivity|].
    split; [now rewrite E|]. intros pre' rest' _ Hlt. inversion Hlt.
  - destruct (match_at (String c s)) as [m'|] eqn:E.
    + exists EmptyString, (String c s). split; [reflexivity|].
      split; [now rewrite E|]. intros pre' rest' _ Hlt. inversion Hlt.
    + destruct (IH Hs) as (pre & rest & -> & Hm & Hleft).
      exists (String c pre), rest. split; [reflexivity|]. split; [exact Hm|].
      intros pre' rest' Heq Hlt. destruct pre' as [|c' pre'].
      * cbn in Heq. subst rest'. exact E.
      * cbn in Heq. injection Heq as <- Heq.
        apply (Hleft pre' rest' Heq). cbn in Hlt. lia.
Qed.


(** The six groups of a timestamp. *)
Lemma match_timestamp_shape (t post : string) :
  timestamp_shape t = true ->
  match_timestamp (t ++ post) =
  Some [substring 0 4 t; substring 4 2 t; substring 6 2 t;
        substring 9 2 t; substring 11 2 t; substring 13 2 t].
Proof.
  unfold timestamp_shape. intros H.
  destruct t as [|y1 [|y2 [|y3 [|y4 [|m1 [|m2 [|d1 [|d2 [|u [|h1 [|h2 [|i1
    [|i2 [|s1 [|s2 [|x t]]]]]]]]]]]]]]]]; try discriminate H.
  cbn [list_ascii_of_string] in H.
  cbn [String.append match_timestamp]. rewrite H. reflexivity.
Qed.

Lemma match_timestamp_inv (s : string) (groups : list string) :
  match_timestamp s = Some groups ->
  exists t post, s = t ++ post /\ timestamp_shape t = true.
Proof.
  intros H.
  destruct s as [|y1 [|y2 [|y3 [|y4 [|m1 [|m2 [|d1 [|d2 [|u [|h1 [|h2 [|i1
    [|i2 [|s1 [|s2 post]]]]]]]]]]]]]]]; try discriminate H.
  cbn [match_timestamp] in H.
  destruct (forallb isdigit _ && Ascii.eqb u "_") eqn:E; [|discriminate H].
  exists (String y1 (String y2 (String y3 (String y4 (String m1 (String m2
          (String d1 (String d2 (String u (String h1 (String h2 (String i1
          (String i2 (str2 s1 s2)))))))))))))), post.
  split; [reflexivity|exact E].
Qed.

(** Reading the groups as integers and printing them padded gives the
    digits back, in canonical form. *)
Lemma timestamp_groups_format (t : string) :
  timestamp_shape t = true ->
  match map int_of_str [substring 0 4 t; substring 4 2 t; substring 6 2 t;
                        substring 9 2 t; substring 11 2 t; substring 13 2 t]
  with
  | [Ok year; Ok month; Ok day; Ok hour; Ok minute; Ok second] =>
      Some (format_0d 4 year ++ ":" ++ format_0d 2 month ++ ":" ++
            format_0d 2 day ++ " " ++ format_0d 2 hour ++ ":" ++
            format_0d 2 minute ++ ":" ++ format_0d 2 second)
  | _ => None
  end = Some (reformat_timestamp t).
Proof.
  unfold timestamp_shape, reformat_timestamp. intros H.
  destruct t as [|y1 [|y2 [|y3 [|y4 [|m1 [|m2 [|d1 [|d2 [|u [|h1 [|h2 [|i1
    [|i2 [|s1 [|s2 [|x t]]]]]]]]]]]]]]]]; try discriminate H.
  cbn [list_ascii_of_string forallb] in H. split_andb.
  cbn [substring map].
  destruct (group4_roundtrip y1 y2 y3 y4) as (year & Hy & _ & Fy); trivial.
  destruct (group2_roundtrip m1 m2) as (month & Hm & _ & Fm); trivial.
  destruct (group2_roundtrip d1 d2) as (day & Hd & _ & Fd); trivial.
  destruct (group2_roundtrip h1 h2) as (hour & Hh & _ & Fh); trivial.
  destruct (group2_roundtrip i1 i2) as (minute & Hi & _ & Fi); trivial.
  destruct (group2_roundtrip s1 s2) as (second & Hs & _ & Fs); trivial.
  unfold str2 in *.
  rewrite Hy, Hm, Hd, Hh, Hi, Hs, Fy, Fm, Fd, Fh, Fi, Fs. reflexivity.
Qed.

Lemma timestamp_shape_length (t : string) :
  timestamp_shape t = true -> String.length t = 15%nat.
Proof.
  unfold timestamp_shape. intros H.
  destruct t as [|y1 [|y2 [|y3 [|y4 [|m1 [|m2 [|d1 [|d2 [|u [|h1 [|h2 [|i1
    [|i2 [|s1 [|s2 [|x t]]]]]]]]]]]]]]]]; try discriminate H.
  reflexivity.
Qed.





(** The example of the specification, computed. *)
Example filename_example :
  resolve_date (H := padding) PNone (mkpath photos "IMG_20230126_203929.jpg")
  = Ok (Some "2023:01:26 20:39:29").
Proof. reflexivity. Qed.

(** ** The calendar *)

Lemma in_range (bound z : Z) :
  0 <= z < bound -> In z (map Z.of_nat (seq 0 (Z.to_nat bound))).
Proof.
  intros Hz. apply in_map_iff. exists (Z.to_nat z).
  split; [lia|]. apply in_seq. lia.
Qed.

Lemma yday2md_spec (leap : bool) (n : Z) :
  0 <= n < 365 ->
  let '(m, d) := yday2md leap n in
  1 <= m <= 12 /\ 1 <= d <= month_length leap m /\
  days_before_month leap m + d = n + 1.
Proof.
  intros Hn.
  assert (Hall : forallb (fun leap =>
            forallb (yday2md_ok leap) (map Z.of_nat (seq 0 (Z.to_nat 365))))
            [true; false] = true) by (vm_compute; reflexivity).
  rewrite forallb_forall in Hall.
  assert (Hleap : In leap [true; false]) by (destruct leap; cbn; tauto).
  specialize (Hall leap Hleap). rewrite forallb_forall in Hall.
  specialize (Hall n (in_range 365 n Hn)).
  unfold yday2md_ok in Hall. destruct (yday2md leap n) as [m d].
  split_andb. lia.
Qed.

(** The year that starts after [a] cycles of 400 years, [b] of 100, [c] of
    4 and [e] single years. *)
Lemma cycles_year (a b c e : Z) :
  0 <= b <= 3 -> 0 <= c <= 24 -> 0 <= e <= 3 ->
  let y := 400 * a + 100 * b + 4 * c + e + 1 in
  days_before_year y = 146097 * a + 36524 * b + 1461 * c + 365 * e /\
  is_leap y = (e =? 3) && (negb (c =? 24) || (b =? 3)).
Proof.
  intros Hb Hc He y. subst y. split.
  - unfold days_before_year. cbv zeta. Z.div_mod_to_equations. lia.
  - unfold is_leap.
    destruct (Z.eqb_spec e 3), (Z.eqb_spec c 24), (Z.eqb_spec b 3);
      cbn [andb orb negb];
      repeat match goal with
             | |- context [?x mod ?k =? 0] =>
                 destruct (Z.eqb_spec (x mod k) 0)
             end;
      cbn [andb orb negb]; try reflexivity;
      exfalso; Z.div_mod_to_equations; lia.
Qed.

(** [ord2ymd] gives a date of the calendar, and the one with that ordinal. *)
Lemma ord2ymd_spec (ordinal : Z) :
  let '(y, m, d) := ord2ymd ordinal in
  1 <= m <= 12 /\ 1 <= d <= days_in_month y m /\ ymd2ord y m d = ordinal.
Proof.
  unfold ord2ymd. cbv zeta.
  set (n0 := ordinal - 1).
  set (a := n0 / 146097). set (r400 := n0 mod 146097).
  set (b := r400 / 36524). set (r100 := r400 mod 36524).
  set (c := r100 / 1461). set (r4 := r100 mod 1461).
  set (e := r4 / 365). set (r1 := r4 mod 365).
  assert (Hfacts :
    n0 = 146097 * a + r400 /\ 0 <= r400 < 146097 /\
    r400 = 36524 * b + r100 /\ 0 <= r100 < 36524 /\
    r100 = 1461 * c + r4 /\ 0 <= r4 < 1461 /\
    r4 = 365 * e + r1 /\ 0 <= r1 < 365).
  { subst a r400 b r100 c r4 e r1. Z.div_mod_to_equations. lia. }
  clearbody a r400 b r100 c r4 e r1.
  destruct Hfacts as (H400 & B400 & H100 & B100 & H4 & B4 & H1 & B1).
  assert (Hord : ordinal = n0 + 1) by (subst n0; lia). clearbody n0.
  destruct ((e =? 4) || (b =? 4)) eqn:Hlast.
  - (* the last day of a leap year *)
    assert (Hcase : (e = 4 /\ 0 <= b <= 3 /\ 0 <= c <= 23 /\ r1 = 0) \/
                    (b = 4 /\ r100 = 0 /\ c = 0 /\ r4 = 0 /\ e = 0 /\ r1 = 0)).
    { apply orb_true_iff in Hlast. destruct Hlast as [E|E];
        apply Z.eqb_eq in E; lia. }
    unfold days_in_month, ymd2ord.
    destruct Hcase as [(He & Hb & Hc & Hr)|(Hb & _ & Hc & _ & He & Hr)].
    + destruct (cycles_year a b c 3) as [Hdby Hleap]; try lia.
      replace (a * 400 + 1 + b * 100 + c * 4 + e - 1)
        with (400 * a + 100 * b + 4 * c + 3 + 1) by lia.
      rewrite Hdby, Hleap.
      replace (negb (c =? 24)) with true
        by (destruct (Z.eqb_spec c 24); [lia|reflexivity]).
      change ((3 =? 3) && (true || (b =? 3))) with true.
      change (month_length true 12) with 31.
      change (days_before_month true 12) with 335. lia.
    + destruct (cycles_year a 3 24 3) as [Hdby Hleap]; try lia.
      replace (a * 400 + 1 + b * 100 + c * 4 + e - 1)
        with (400 * a + 100 * 3 + 4 * 24 + 3 + 1) by lia.
      rewrite Hdby, Hleap.
      change ((3 =? 3) && (negb (24 =? 24) || (3 =? 3))) with true.
      change (month_length true 12) with 31.
      change (days_before_month true 12) with 335. lia.
  - apply orb_false_iff in Hlast. destruct Hlast as [He Hb].
    apply Z.eqb_neq in He, Hb.
    assert (Hbe : 0 <= b <= 3 /\ 0 <= c <= 24 /\ 0 <= e <= 3) by lia.
    destruct Hbe as (Bb & Bc & Be).
    destruct (cycles_year a b c e Bb Bc Be) as [Hdby Hleap].
    cbv zeta in Hdby, Hleap.
    replace (a * 400 + 1 + b * 100 + c * 4 + e)
      with (400 * a + 100 * b + 4 * c + e + 1) by lia.
    pose proof (yday2md_spec ((e =? 3) && (negb (c =? 24) || (b =? 3))) r1 B1)
      as Hmd.
    destruct (yday2md _ r1) as [m d].
    destruct Hmd as (Hm & Hd & Hsum).
    unfold days_in_month, ymd2ord. rewrite Hdby, Hleap.
    split; [exact Hm|]. split; [exact Hd|]. lia.
Qed.

Lemma days_before_month_bounds (leap : bool) (m : Z) :
  0 <= days_before_month leap m <= 335.
Proof.
  unfold days_before_month.
  destruct ((2 <? m) && leap);
    repeat match goal with
           | |- context [match ?x with _ => _ end] => destruct x
           end; lia.
Qed.

Lemma month_length_bounds (leap : bool) (m : Z) :
  28 <= month_length leap m <= 31.
Proof.
  unfold month_length.
  destruct (m =? 2); [destruct leap; lia|].
  destruct (_ || _); lia.
Qed.

(** The year of an ordinal between the first day of year 1 and the last day
    of year 9999. *)
Lemma ymd2ord_year_range (y m d : Z) :
  1 <= d <= days_in_month y m ->
  1 <= ymd2ord y m d <= 3652059 ->
  1 <= y <= 9999.
Proof.
  unfold ymd2ord, days_in_month, days_before_year. cbv zeta.
  intros Hd Hord.
  pose proof (days_before_month_bounds (is_leap y) m).
  pose proof (month_length_bounds (is_leap y) m).
  Z.div_mod_to_equations. lia.
Qed.

Lemma valid_datetime_intro (y mo d h mi s : Z) :
  1 <= y <= 9999 -> 1 <= mo <= 12 -> 1 <= d <= days_in_month y mo ->
  0 <= h <= 23 -> 0 <= mi <= 59 -> 0 <= s <= 59 ->
  valid_datetime (mkdatetime y mo d h mi s) = true.
Proof.
  intros. unfold valid_datetime. cbn [year month day hour minute second].
  repeat (apply andb_true_intro; split); apply Z.leb_le; lia.
Qed.

Lemma valid_datetime_elim (dt : datetime) :
  valid_datetime dt = true ->
  1 <= year dt <= 9999 /\ 1 <= month dt <= 12 /\
  1 <= day dt <= days_in_month (year dt) (month dt) /\
  0 <= hour dt <= 23 /\ 0 <= minute dt <= 59 /\ 0 <= second dt <= 59.
Proof.
  unfold valid_datetime. intros H. split_andb.
  repeat match goal with
         | H : (_ <=? _) = true |- _ => apply Z.leb_le in H
         end.
  lia.
Qed.

(** [utcfromtimestamp] returns a date and time of the calendar, and the one
    that many seconds after the epoch. *)
Lemma utcfromtimestamp_spec (t : Z) (dt : datetime) :
  utcfromtimestamp t = Ok dt -> valid_datetime dt = true /\ timegm dt = t.
Proof.
  unfold utcfromtimestamp. cbv zeta.
  pose proof (ord2ymd_spec (t / 86400 + 719163)) as Hord.
  destruct (ord2ymd (t / 86400 + 719163)) as [[y m] d].
  destruct Hord as (Hm & Hd & Hsum).
  destruct ((1 <=? y) && (y <=? 9999)) eqn:Hy; [|discriminate].
  intros [= <-]. split_andb.
  repeat match goal with
         | H : (_ <=? _) = true |- _ => apply Z.leb_le in H
         end.
  split.
  - apply valid_datetime_intro; try assumption; try lia;
      Z.div_mod_to_equations; lia.
  - unfold timegm. cbn [year month day hour minute second]. rewrite Hsum.
    Z.div_mod_to_equations. lia.
Qed.

(** It returns for every timestamp a [datetime] can hold. *)
Lemma utcfromtimestamp_in_range (t : Z) :
  MIN_TIMESTAMP <= t <= MAX_TIMESTAMP ->
  exists dt, utcfromtimestamp t = Ok dt.
Proof.
  unfold MIN_TIMESTAMP, MAX_TIMESTAMP. intros Ht.
  unfold utcfromtimestamp. cbv zeta.
  pose proof (ord2ymd_spec (t / 86400 + 719163)) as Hord.
  destruct (ord2ymd (t / 86400 + 719163)) as [[y m] d].
  destruct Hord as (Hm & Hd & Hsum).
  assert (Hy : 1 <= y <= 9999).
  { apply (ymd2ord_year_range y m d Hd). rewrite Hsum.
    Z.div_mod_to_equations. lia. }
  replace ((1 <=? y) && (y <=? 9999)) with true; [eexists; reflexivity|].
  symmetry. apply andb_true_intro. split; apply Z.leb_le; lia.
Qed.

(** ** The shape of the resolved date *)

Lemma format_4_digits (n : Z) :
  0 <= n <= 9999 ->
  exists a b c d,
    format_0d 4 n = String a (String b (String c (String d EmptyString))) /\
    forallb isdigit [a; b; c; d] = true.
Proof.
  intros Hn.
  assert (Hall : forallb (fun n =>
            match format_0d 4 n with
            | String a (String b (String c (String d EmptyString))) =>
                forallb isdigit [a; b; c; d]
            | _ => false
            end) (map Z.of_nat (seq 0 (Z.to_nat 10000))) = true)
    by (vm_compute; reflexivity).
  rewrite forallb_forall in Hall.
  specialize (Hall n (in_range 10000 n ltac:(lia))).
  destruct (format_0d 4 n) as [|a [|b [|c [|d [|x r]]]]]; try discriminate Hall.
  exists a, b, c, d. split; [reflexivity|exact Hall].
Qed.

Lemma format_1_four_digits (n : Z) :
  1000 <= n <= 9999 -> format_0d 1 n = format_0d 4 n.
Proof.
  intros Hn.
  assert (Hall : forallb (fun n =>
            String.eqb (format_0d 1 (n + 1000)) (format_0d 4 (n + 1000)))
            (map Z.of_nat (seq 0 (Z.to_nat 9000))) = true)
    by (vm_compute; reflexivity).
  rewrite forallb_forall in Hall.
  specialize (Hall (n - 1000) (in_range 9000 (n - 1000) ltac:(lia))).
  replace (n - 1000 + 1000) with n in Hall by lia.
  now apply String.eqb_eq.
Qed.

Lemma format_2_digits (n : Z) :
  0 <= n <= 99 ->
  exists a b,
    format_0d 2 n = String a (String b EmptyString) /\
    forallb isdigit [a; b] = true.
Proof.
  intros Hn.
  assert (Hall : forallb (fun n =>
            match format_0d 2 n with
            | String a (String b EmptyString) => forallb isdigit [a; b]
            | _ => false
            end) (map Z.of_nat (seq 0 (Z.to_nat 100))) = true)
    by (vm_compute; reflexivity).
  rewrite forallb_forall in Hall.
  specialize (Hall n (in_range 100 n ltac:(lia))).
  destruct (format_0d 2 n) as [|a [|b [|x r]]]; try discriminate Hall.
  exists a, b. split; [reflexivity|exact Hall].
Qed.

Lemma strftime_shape (pads_year : bool) (dt : datetime) :
  valid_datetime dt = true ->
  pads_year = true \/ 1000 <= year dt ->
  canonical_shape (strftime pads_year dt) = true.
Proof.
  intros Hvalid Hyear.
  destruct (valid_datetime_elim dt Hvalid) as (Hy & Hmo & Hd & Hh & Hmi & Hs).
  pose proof (month_length_bounds (is_leap (year dt)) (month dt)) as Hlen.
  unfold days_in_month in Hd.
  assert (Hfmt : format_0d (if pads_year then 4 else 1) (year dt)
                 = format_0d 4 (year dt)).
  { destruct pads_year; [reflexivity|].
    apply format_1_four_digits. destruct Hyear as [E|E]; [discriminate|lia]. }
  unfold strftime. rewrite Hfmt.
  destruct (format_4_digits (year dt)) as (y1 & y2 & y3 & y4 & -> & Dy); [lia|].
  destruct (format_2_digits (month dt)) as (m1 & m2 & -> & Dm); [lia|].
  destruct (format_2_digits (day dt)) as (d1 & d2 & -> & Dd); [lia|].
  destruct (format_2_digits (hour dt)) as (h1 & h2 & -> & Dh); [lia|].
  destruct (format_2_digits (minute dt)) as (i1 & i2 & -> & Di); [lia|].
  destruct (format_2_digits (second dt)) as (s1 & s2 & -> & Ds); [lia|].
  cbn [forallb] in *. split_andb.
  unfold canonical_shape.
  cbn [String.append list_ascii_of_string forallb].
  repeat match goal with H : isdigit _ = true |- _ => rewrite H; clear H end.
  reflexivity.
Qed.

Lemma reformat_timestamp_shape (t : string) :
  timestamp_shape t = true -> canonical_shape (reformat_timestamp t) = true.
Proof.
  unfold timestamp_shape, reformat_timestamp. intros H.
  destruct t as [|y1 [|y2 [|y3 [|y4 [|m1 [|m2 [|d1 [|d2 [|u [|h1 [|h2 [|i1
    [|i2 [|s1 [|s2 [|x t]]]]]]]]]]]]]]]]; try discriminate H.
  cbn [list_ascii_of_string forallb] in H. split_andb.
  unfold canonical_shape.
  cbn [substring String.append list_ascii_of_string forallb].
  repeat match goal with H : isdigit _ = true |- _ => rewrite H; clear H end.
  reflexivity.
Qed.

Lemma extract_date_from_filename_shape (file_path : path) (s : string) :
  extract_date_from_filename file_path = Some s -> canonical_shape s = true.
Proof.
  unfold extract_date_from_filename.
  destruct (re_search match_timestamp (stem file_path)) as [groups|] eqn:Hs;
    [|discriminate].
  destruct (re_search_leftmost _ _ _ Hs) as (pre & rest & _ & Hm & _).
  destruct (match_timestamp_inv _ _ Hm) as (t & post & -> & Hshape).
  rewrite (match_timestamp_shape t post Hshape) in Hm. injection Hm as <-.
  rewrite (timestamp_groups_format t Hshape). intros [= <-].
  exact (reformat_timestamp_shape t Hshape).
Qed.

Lemma extract_date_from_folder_shape (file_path : path) (s : string) :
  extract_date_from_folder file_path = Some s -> canonical_shape s = true.
Proof.
  unfold extract_date_from_folder.
  destruct (re_search match_year (parent_name file_path)) as [group0|] eqn:Hs;
    [|discriminate].
  destruct (re_search_leftmost _ _ _ Hs) as (pre & rest & _ & Hm & _).
  intros [= <-]. unfold match_year in Hm.
  destruct rest as [|a [|b [|c [|d rest]]]]; try discriminate Hm.
  destruct (_ && isdigit d) eqn:E; [|discriminate Hm].
  injection Hm as <-. split_andb.
  assert (Hab : isdigit a = true /\ isdigit b = true).
  { match goal with H : _ || _ = true |- _ =>
      apply orb_true_iff in H; destruct H as [H|H] end;
      split_andb;
      repeat match goal with
             | H : Ascii.eqb _ _ = true |- _ => apply Ascii.eqb_eq in H; subst
             end; split; reflexivity. }
  destruct Hab as [Da Db].
  unfold canonical_shape, str2.
  cbn [String.append list_ascii_of_string forallb].
  repeat match goal with H : isdigit _ = true |- _ => rewrite H; clear H end.
  reflexivity.
Qed.

(** Every date the sidecar gives is the rendering of a date and time of the
    calendar. *)
Lemma parse_google_formatted_valid `{Platform} (v : pyval) (s : string) :
  parse_google_formatted v = Some s ->
  exists dt, valid_datetime dt = true /\ s = strftime strftime_pads_year dt.
Proof.
  unfold parse_google_formatted, parse_google_formatted_body.
  destruct v; try discriminate. cbn [bind].
  destruct (_ <? 4)%nat; [discriminate|].
  destruct (int_of_str (nth 0 _ _)) as [day|e]; [|discriminate]. cbn [bind].
  destruct (int_of_str (nth 2 _ _)) as [year|e]; [|discriminate]. cbn [bind].
  destruct (unpack3_int _) as [[[hour minute] second]|e]; [|discriminate].
  cbn [bind]. unfold datetime_new.
  destruct (valid_datetime _) eqn:Hvalid; [|discriminate].
  cbn [bind except_None]. intros [= <-].
  eexists. split; [exact Hvalid|reflexivity].
Qed.

Lemma sidecar_date_valid `{Platform} (json_data : pyval) (s : string) :
  sidecar_date json_data = Ok (Some s) ->
  exists dt, valid_datetime dt = true /\ s = strftime strftime_pads_year dt.
Proof.
  unfold sidecar_date.
  destruct (if truthy json_data then _ else _) as [[|]|e];
    cbn [bind]; try discriminate.
  destruct (getitem json_data "photoTakenTime") as [pt|e];
    cbn [bind]; [|discriminate].
  destruct (key_truthy "formatted" pt) as [has_formatted|e];
    cbn [bind]; [|discriminate].
  assert (Htimestamp :
    (has_timestamp <- key_truthy "timestamp" pt ;;
     if has_timestamp then
       timestamp <- getitem pt "timestamp" ;;
       seconds <- py_int timestamp ;;
       dt <- utcfromtimestamp seconds ;;
       Ok (Some (strftime strftime_pads_year dt))
     else Ok None)%result = Ok (Some s) ->
    exists dt, valid_datetime dt = true /\ s = strftime strftime_pads_year dt).
  { destruct (key_truthy "timestamp" pt) as [[|]|e];
      cbn [bind]; try discriminate.
    destruct (getitem pt "timestamp") as [ts|e]; cbn [bind]; [|discriminate].
    destruct (py_int ts) as [n|e]; cbn [bind]; [|discriminate].
    destruct (utcfromtimestamp n) as [dt|e] eqn:Hdt; cbn [bind];
      [|discriminate].
    intros [= <-]. exists dt.
    split; [exact (proj1 (utcfromtimestamp_spec n dt Hdt))|reflexivity]. }
  destruct has_formatted.
  - destruct (getitem pt "formatted") as [f|e]; cbn [bind]; [|discriminate].
    destruct (parse_google_formatted f) as [exif_date|] eqn:Hparse;
      cbn [opt_truthy].
    + destruct (negb _).
      * intros [= <-]. exact (parse_google_formatted_valid f _ Hparse).
      * exact Htimestamp.
    + exact Htimestamp.
  - cbn [bind opt_truthy]. exact Htimestamp.
Qed.

(** Where the shape can fail: a string [resolve_date] returns has the
    canonical shape of nineteen characters, unless it comes from the
    sidecar with a year below 1000 on a platform whose [strftime] does not
    pad the year.  The file name and the folder always give the canonical
    shape: [extract_date_from_filename] pads the year itself. *)
Theorem resolved_date_shape `{Platform} (json_data : pyval)
  (file_path : path) (s : string) :
  resolve_date json_data file_path = Ok (Some s) ->
  canonical_shape s = true \/
  (strftime_pads_year = false /\
   sidecar_date json_data = Ok (Some s) /\
   exists dt, valid_datetime dt = true /\ year dt < 1000 /\
              s = strftime false dt).
Proof.
  rewrite resolve_date_eq.
  destruct (sidecar_date json_data) as [[exif_date|]|e] eqn:Hjson;
    cbn [bind]; [| |discriminate].
  - intros [= <-].
    destruct (sidecar_date_valid json_data exif_date Hjson)
      as (dt & Hvalid & Hs).
    destruct strftime_pads_year eqn:Hpads.
    + left. rewrite Hs. apply strftime_shape; [exact Hvalid|now left].
    + destruct (Z_lt_le_dec (year dt) 1000) as [Hlt|Hge].
      * right. split; [reflexivity|]. split; [reflexivity|].
        exists dt. repeat split; assumption.
      * left. rewrite Hs. apply strftime_shape; [exact Hvalid|now right].
  - unfold filename_or_folder. intros [= Hs]. left.
    destruct (opt_truthy (extract_date_from_filename file_path)).
    + exact (extract_date_from_filename_shape file_path s Hs).
    + exact (extract_date_from_folder_shape file_path s Hs).
Qed.

Lemma resolved_date_shape_witness :
  let json_data := sidecar_taken [("timestamp", PStr "1674765569")] in
  let file_path := mkpath photos "IMG.jpg" in
  let s := "2023:01:26 20:39:29" in
  resolve_date (H := glibc_like) json_data file_path = Ok (Some s) /\
  (canonical_shape s = true \/
   (strftime_pads_year (Platform := glibc_like) = false /\
    sidecar_date (H := glibc_like) json_data = Ok (Some s) /\
    exists dt, valid_datetime dt = true /\ year dt < 1000 /\
               s = strftime false dt)).
Proof.
  intros json_data file_path s.
  split; [reflexivity|].
  apply (resolved_date_shape (H := glibc_like) json_data file_path s).
  reflexivity.
Defined.

(** C10 (the code does not do this): the sidecar tier leaves the year to
    [strftime], where [extract_date_from_filename] pads it to four digits.
    Where [strftime] prints the bare year, the last second of the year 999
    comes back with a three-digit year, eighteen characters in all. *)
Lemma year_999_is_not_canonical :
  let json_data := sidecar_taken [("timestamp", PStr "-30610224001")] in
  let file_path := mkpath photos "IMG.jpg" in
  resolve_date (H := glibc_like) json_data file_path
    = Ok (Some "999:12:31 23:59:59") /\
  canonical_shape "999:12:31 23:59:59" = false.
Proof.
  split; reflexivity.
Qed.

(** ** The epoch timestamp *)

Lemma is_leap_arith (y : Z) :
  (is_leap y = true /\
   (y mod 4 = 0 /\ (y mod 100 <> 0 \/ y mod 400 = 0))) \/
  (is_leap y = false /\
   ~ (y mod 4 = 0 /\ (y mod 100 <> 0 \/ y mod 400 = 0))).
Proof.
  unfold is_leap.
  destruct (Z.eqb_spec (y mod 4) 0), (Z.eqb_spec (y mod 100) 0),
    (Z.eqb_spec (y mod 400) 0); cbn; tauto.
Qed.

(** A later year starts after the whole of an earlier one. *)
Lemma days_before_year_next (y y' : Z) :
  y < y' ->
  days_before_year y + 365 + (if is_leap y then 1 else 0)
  <= days_before_year y'.
Proof.
  intros H. unfold days_before_year. cbv zeta.
  destruct (is_leap_arith y) as [[-> Hl]|[-> Hl]].
  - Z.div_mod_to_equations; lia.
  - Z.div_mod_to_equations; lia.
Qed.


Ltac eval_calendar :=
  repeat match goal with
         | |- context [days_before_month ?l ?m] =>
             let v := eval vm_compute in (days_before_month l m) in
             change (days_before_month l m) with v
         | H : context [days_before_month ?l ?m] |- _ =>
             let v := eval vm_compute in (days_before_month l m) in
             change (days_before_month l m) with v in H
         | |- context [month_length ?l ?m] =>
             let v := eval vm_compute in (month_length l m) in
             change (month_length l m) with v
         | H : context [month_length ?l ?m] |- _ =>
             let v := eval vm_compute in (month_length l m) in
             change (month_length l m) with v in H
         end.

Ltac month_cases m :=
  let Hc := fresh "Hc" in
  assert (Hc : m = 1 \/ m = 2 \/ m = 3 \/ m = 4 \/ m = 5 \/ m = 6 \/
               m = 7 \/ m = 8 \/ m = 9 \/ m = 10 \/ m = 11 \/ m = 12) by lia;
  repeat (destruct Hc as [Hc|Hc]; [subst m|]); [..|subst m].

Lemma day_of_year_bounds (leap : bool) (m d : Z) :
  1 <= m <= 12 -> 1 <= d <= month_length leap m ->
  1 <= days_before_month leap m + d <= 365 + (if leap then 1 else 0).
Proof.
  intros Hm Hd. destruct leap; month_cases m; eval_calendar; lia.
Qed.

Lemma day_of_year_inj (leap : bool) (m d m' d' : Z) :
  1 <= m <= 12 -> 1 <= d <= month_length leap m ->
  1 <= m' <= 12 -> 1 <= d' <= month_length leap m' ->
  days_before_month leap m + d = days_before_month leap m' + d' ->
  m = m' /\ d = d'.
Proof.
  intros Hm Hd Hm' Hd' E.
  destruct leap; month_cases m; month_cases m'; eval_calendar; lia.
Qed.

(** Two dates of the calendar with the same ordinal are the same date. *)
Lemma ymd2ord_inj (y m d y' m' d' : Z) :
  1 <= m <= 12 -> 1 <= d <= days_in_month y m ->
  1 <= m' <= 12 -> 1 <= d' <= days_in_month y' m' ->
  ymd2ord y m d = ymd2ord y' m' d' -> y = y' /\ m = m' /\ d = d'.
Proof.
  unfold ymd2ord, days_in_month. intros Hm Hd Hm' Hd' E.
  pose proof (day_of_year_bounds _ _ _ Hm Hd) as B.
  pose proof (day_of_year_bounds _ _ _ Hm' Hd') as B'.
  assert (Hy : y = y').
  { destruct (Z.lt_trichotomy y y') as [L|[L|L]]; [|exact L|].
    - pose proof (days_before_year_next y y' L). lia.
    - pose proof (days_before_year_next y' y L). lia. }
  subst y'. split; [reflexivity|].
  apply (day_of_year_inj (is_leap y)); try assumption. lia.
Qed.

(** Two dates and times of the calendar the same number of seconds after
    the epoch are the same. *)
Lemma timegm_inj (dt dt' : datetime) :
  valid_datetime dt = true -> valid_datetime dt' = true ->
  timegm dt = timegm dt' -> dt = dt'.
Proof.
  intros V V' E.
  destruct (valid_datetime_elim dt V) as (Hy & Hmo & Hd & Hh & Hmi & Hs).
  destruct (valid_datetime_elim dt' V')
    as (Hy' & Hmo' & Hd' & Hh' & Hmi' & Hs').
  destruct dt as [y mo d h mi s], dt' as [y' mo' d' h' mi' s'].
  unfold timegm in E. cbn [year month day hour minute second] in *.
  assert (Hord : ymd2ord y mo d = ymd2ord y' mo' d') by lia.
  destruct (ymd2ord_inj _ _ _ _ _ _ Hmo Hd Hmo' Hd' Hord) as (-> & -> & ->).
  assert (h = h' /\ mi = mi' /\ s = s') as (-> & -> & ->) by lia.
  reflexivity.
Qed.

(** C5, amended: when the [formatted] sub-field gives no date and the
    [timestamp] sub-field is present, truthy, converted by [int] and an
    epoch value a [datetime] can hold (years 1 to 9999), [resolve_date]
    returns the rendering of the one date and time of the calendar that
    lies that many seconds after 1970-01-01T00:00:00 UTC; the rendering
    has the canonical shape when the year has four digits or the platform
    pads it. *)
Theorem timestamp_is_rendered_utc `{Platform} (d pt : list (string * pyval))
  (timestamp : pyval) (seconds : Z) (file_path : path) :
  lookup "photoTakenTime" d = Some (PDict pt) ->
  opt_truthy (formatted_date pt) = false ->
  lookup "timestamp" pt = Some timestamp ->
  truthy timestamp = true ->
  py_int timestamp = Ok seconds ->
  MIN_TIMESTAMP <= seconds <= MAX_TIMESTAMP ->
  exists dt,
    resolve_date (PDict d) file_path
      = Ok (Some (strftime strftime_pads_year dt)) /\
    valid_datetime dt = true /\
    timegm dt = seconds /\
    (forall dt', valid_datetime dt' = true -> timegm dt' = seconds ->
                 dt' = dt) /\
    (strftime_pads_year = true \/ 1000 <= year dt ->
     canonical_shape (strftime strftime_pads_year dt) = true).
Proof.
  intros Hpt Hformatted Hts Htruthy Hint Hrange.
  destruct (utcfromtimestamp_in_range seconds Hrange) as [dt Hdt].
  destruct (utcfromtimestamp_spec seconds dt Hdt) as [Hvalid Hgm].
  exists dt. split; [|split; [exact Hvalid|split; [exact Hgm|split]]].
  2: { intros dt' Hvalid' Hgm'. apply timegm_inj; congruence. }
  - rewrite resolve_date_eq, (sidecar_date_taken d pt Hpt).
    destruct (formatted_date pt) as [exif_date|].
    + cbn [opt_truthy] in Hformatted. rewrite Hformatted.
      rewrite Hts, Htruthy, Hint. cbn [bind]. rewrite Hdt. reflexivity.
    + rewrite Hts, Htruthy, Hint. cbn [bind]. rewrite Hdt. reflexivity.
  - intros Hyear. apply strftime_shape; assumption.
Qed.

Lemma timestamp_is_rendered_utc_witness :
  let pt := [("timestamp", PStr "1674765569");
             ("formatted", PStr "26 Jan 2023, 20:39:29 UTC")] in
  let d := [("title", PStr "IMG.jpg"); ("photoTakenTime", PDict pt)] in
  let file_path := mkpath photos "IMG.jpg" in
  resolve_date (H := padding) (PDict d) file_path
    = Ok (Some "2023:01:26 20:39:29") /\
  timegm (mkdatetime 2023 1 26 20 39 29) = 1674765569 /\
  exists dt,
    resolve_date (H := padding) (PDict d) file_path
      = Ok (Some (strftime true dt)) /\
    valid_datetime dt = true /\
    timegm dt = 1674765569 /\
    (forall dt', valid_datetime dt' = true -> timegm dt' = 1674765569 ->
                 dt' = dt) /\
    (true = true \/ 1000 <= year dt ->
     canonical_shape (strftime true dt) = true).
Proof.
  intros pt d file_path.
  split; [reflexivity|]. split; [reflexivity|].
  apply (timestamp_is_rendered_utc (H := padding) d pt
           (PStr "1674765569") 1674765569 file_path);
    [reflexivity | reflexivity | reflexivity | reflexivity | reflexivity
    | unfold MIN_TIMESTAMP, MAX_TIMESTAMP; lia].
Defined.

(** C5 as stated fails: a [timestamp] in milliseconds is present and
    truthy and [int] converts it, but it lies beyond the year 9999;
    [utcfromtimestamp] raises and [resolve_date] returns no rendering. *)
Lemma millisecond_timestamp_is_not_rendered :
  let pt := [("timestamp", PStr "1674765569000")] in
  let json_data := sidecar_taken pt in
  let file_path := mkpath photos "IMG.jpg" in
  opt_truthy (formatted_date (H := padding) pt) = false /\
  py_int (PStr "1674765569000") = Ok 1674765569000 /\
  MAX_TIMESTAMP < 1674765569000 /\
  resolve_date (H := padding) json_data file_path = Raise ValueError /\
  forall s, resolve_date (H := padding) json_data file_path <> Ok (Some s).
Proof.
  split; [reflexivity|]. split; [reflexivity|]. split; [reflexivity|].
  split; [reflexivity|discriminate].
Qed.

(** * Further properties *)

(** ** The year in the folder name *)





(** ** The other answers of the write *)

(** X2: when the error output of the write has none of the markers and the
    exit code is not zero, the outcome is FAILED with the date and the
    error output, or with "Exiftool failed" when the error output is empty;
    the tool is not run again. *)
Theorem nonzero_exit_is_failed `{Platform} (depth : nat)
  (json_data : pyval) (file_path : path) (w w1 : world)
  (date_str : string) (cmd : list string) (result : CompletedProcess) :
  resolve_date json_data file_path = Ok (Some date_str) ->
  date_str <> EmptyString ->
  write_command date_str json_data file_path = Ok cmd ->
  subprocess_run cmd w = Ok (result, w1) ->
  format_mismatch (strip (stderr result)) = false ->
  str_contains "OtherImageStart" (strip (stderr result)) = false ->
  returncode result <> 0 ->
  update_exif (S depth) file_path json_data w =
  Ok ((FAILED, Some date_str,
       Some (if String.eqb (strip (stderr result)) EmptyString
             then "Exiftool failed" else strip (stderr result))), w1).
Proof.
  intros Hdate Hne Hcmd Hrun Hmis Hother Hcode.
  rewrite update_exif_eq. unfold bind_io, lift.
  rewrite Hdate, (opt_truthy_Some _ Hne). cbn [negb].
  rewrite Hcmd, Hrun. unfold after_write.
  rewrite Hmis, Hother.
  destruct (Z.eqb_spec (returncode result) 0); [contradiction|reflexivity].
Qed.

Lemma nonzero_exit_is_failed_witness :
  let file_path := mkpath photos_2019 "IMG.jpg" in
  let date_str := "2019:01:01 12:00:00" in
  let w := Sim.mkstate [(photos_2019, ["IMG.jpg"])] [mkcompleted 1 "" "  "] in
  let w1 := Sim.mkstate [(photos_2019, ["IMG.jpg"])] [] in
  update_exif (H := padding) 1 file_path PNone w =
  Ok ((FAILED, Some date_str, Some "Exiftool failed"), w1).
Proof.
  intros file_path date_str w w1.
  apply (nonzero_exit_is_failed (H := padding) 0 PNone file_path w w1
           date_str
           (base_command date_str ++ ["/Takeout/Photos 2019/IMG.jpg"])%list
           (mkcompleted 1 "" "  "));
    [reflexivity | discriminate | reflexivity | reflexivity | reflexivity
    | reflexivity | discriminate].
Defined.

(** X3: when the write exits with zero and its error output has none of
    the markers, the tool is run once more to read the date back; the
    outcome is UPDATED when the text read, stripped, is the date asked
    for, and FAILED with a validation mismatch that quotes the text read
    otherwise. *)
Theorem write_is_validated `{Platform} (depth : nat)
  (json_data : pyval) (file_path : path) (w w1 w2 : world)
  (date_str : string) (cmd : list string) (result validate : CompletedProcess) :
  resolve_date json_data file_path = Ok (Some date_str) ->
  date_str <> EmptyString ->
  write_command date_str json_data file_path = Ok cmd ->
  subprocess_run cmd w = Ok (result, w1) ->
  format_mismatch (strip (stderr result)) = false ->
  str_contains "OtherImageStart" (strip (stderr result)) = false ->
  returncode result = 0 ->
  subprocess_run
    ["exiftool"; "-ignoreMinorErrors"; "-DateTimeOriginal"; "-s3";
     path_str file_path] w1 = Ok (validate, w2) ->
  update_exif (S depth) file_path json_data w =
  Ok (if String.eqb (strip (stdout validate)) date_str
      then (UPDATED, Some date_str, None)
      else (FAILED, Some date_str,
            Some ("Validation mismatch (read " ++ strip (stdout validate)
                  ++ ")")), w2).
Proof.
  intros Hdate Hne Hcmd Hrun Hmis Hother Hcode Hread.
  rewrite update_exif_eq. unfold bind_io, lift.
  rewrite Hdate, (opt_truthy_Some _ Hne). cbn [negb].
  rewrite Hcmd, Hrun. unfold after_write.
  rewrite Hmis, Hother, Hcode. cbn [Z.eqb negb].
  unfold bind_io. rewrite Hread.
  destruct (String.eqb _ date_str); reflexivity.
Qed.

Lemma write_is_validated_witness :
  let file_path := mkpath photos_2019 "IMG.jpg" in
  let date_str := "2019:01:01 12:00:00" in
  let w := Sim.mkstate [(photos_2019, ["IMG.jpg"])]
             [answer_written; answer_read "2018:05:05 10:00:00"] in
  update_exif (H := padding) 1 file_path PNone w =
  Ok ((FAILED, Some date_str,
       Some "Validation mismatch (read 2018:05:05 10:00:00)"),
      Sim.mkstate [(photos_2019, ["IMG.jpg"])] []).
Proof.
  intros file_path date_str w.
  apply (write_is_validated (H := padding) 0 PNone file_path w
           (Sim.mkstate [(photos_2019, ["IMG.jpg"])]
              [answer_read "2018:05:05 10:00:00"])
           (Sim.mkstate [(photos_2019, ["IMG.jpg"])] [])
           date_str
           (base_command date_str ++ ["/Takeout/Photos 2019/IMG.jpg"])%list
           answer_written (answer_read "2018:05:05 10:00:00"));
    [reflexivity | discriminate | reflexivity | reflexivity | reflexivity
    | reflexivity | reflexivity | reflexivity].
Defined.

(** ** The rename to [.jpg] *)

Lemma rfind_dot_jpg (s : string) :
  rfind "." (s ++ ".jpg") = Some (String.length s).
Proof.
  induction s as [|c s IH]; [reflexivity|].
  cbn [String.append rfind String.length]. rewrite IH. reflexivity.
Qed.

Lemma substring_prefix (s t : string) :
  substring 0 (String.length s) (s ++ t) = s.
Proof.
  induction s as [|c s IH]; [destruct t; reflexivity|].
  cbn [String.append String.length substring]. now rewrite IH.
Qed.

Lemma substring_skip (s t : string) (n : nat) :
  substring (String.length s) n (s ++ t) = substring 0 n t.
Proof.
  induction s as [|c s IH]; [reflexivity|].
  cbn [String.append String.length substring]. exact IH.
Qed.

Lemma stem_nonempty (p : path) :
  name p <> EmptyString -> stem p <> EmptyString.
Proof.
  unfold stem, suffix_index. intros Hn.
  destruct (rfind "." (name p)) as [i|]; [|exact Hn].
  destruct (0 <? i)%nat eqn:Hi; cbn [andb]; [|exact Hn].
  destruct (i <? String.length (name p) - 1)%nat; [|exact Hn].
  apply Nat.ltb_lt in Hi.
  destruct i as [|i]; [lia|]. destruct (name p); [contradiction|discriminate].
Qed.

Lemma jpg_name_parts (parent : list string) (s : string) :
  s <> EmptyString ->
  let q := mkpath parent (s ++ ".jpg") in
  stem q = s /\ suffix q = ".jpg".
Proof.
  intros Hs q. unfold stem, suffix, suffix_index. subst q. cbn [name].
  rewrite rfind_dot_jpg, str_length_app.
  assert (Hlen : (0 < String.length s)%nat)
    by (destruct s; [contradiction|cbn; lia]).
  replace ((0 <? String.length s)%nat) with true
    by (symmetry; apply Nat.ltb_lt; lia).
  replace ((String.length s <? String.length s + String.length ".jpg" - 1)%nat)
    with true by (symmetry; apply Nat.ltb_lt; cbn [String.length]; lia).
  cbn [andb]. split; [apply substring_prefix|].
  rewrite substring_skip.
  replace (String.length s + String.length ".jpg" - String.length s)%nat
    with 4%nat by (cbn [String.length]; lia).
  reflexivity.
Qed.

(** X4: for a file with a name, [with_suffix(".jpg")] stays in the same
    directory, keeps the stem and sets the suffix to [.jpg]; applied to its
    own result it changes nothing, so a file already named [.jpg] is
    renamed to itself. *)
Theorem with_suffix_jpg_keeps_stem (file_path : path) :
  name file_path <> EmptyString ->
  exists new_file,
    with_suffix file_path ".jpg" = Ok new_file /\
    parent new_file = parent file_path /\
    stem new_file = stem file_path /\
    suffix new_file = ".jpg" /\
    with_suffix new_file ".jpg" = Ok new_file.
Proof.
  intros Hn. unfold with_suffix.
  destruct (String.eqb_spec (name file_path) EmptyString) as [E|_];
    [contradiction|].
  eexists. split; [reflexivity|]. split; [reflexivity|].
  destruct (jpg_name_parts (parent file_path) (stem file_path)
              (stem_nonempty file_path Hn)) as [Hstem Hsuffix].
  split; [exact Hstem|]. split; [exact Hsuffix|].
  rewrite Hstem. cbn [name parent].
  destruct (String.eqb_spec (stem file_path ++ ".jpg") EmptyString) as [E|_];
    [|reflexivity].
  destruct (stem file_path); discriminate E.
Qed.

Lemma with_suffix_jpg_keeps_stem_witness :
  name (mkpath photos "IMG.tar.heic") <> EmptyString /\
  exists new_file,
    with_suffix (mkpath photos "IMG.tar.heic") ".jpg" = Ok new_file /\
    parent new_file = photos /\
    stem new_file = "IMG.tar" /\
    suffix new_file = ".jpg" /\
    with_suffix new_file ".jpg" = Ok new_file.
Proof.
  split; [discriminate|].
  apply (with_suffix_jpg_keeps_stem (mkpath photos "IMG.tar.heic")).
  discriminate.
Defined.

Lemma lower_app (a b : string) : lower (a ++ b) = lower a ++ lower b.
Proof. induction a as [|c a IH]; [reflexivity|cbn; now rewrite IH]. Qed.

Lemma startswith_app_same (a x y : string) :
  startswith (a ++ x) (a ++ y) = startswith x y.
Proof.
  induction a as [|c a IH]; [reflexivity|].
  cbn [String.append startswith]. now rewrite Ascii.eqb_refl, IH.
Qed.

Lemma rstrip_by_nonspace_end (sp : ascii -> bool) (x : string) (c : ascii) :
  sp c = false ->
  rstrip_by sp (x ++ String c EmptyString) = x ++ String c EmptyString.
Proof.
  intros Hc. induction x as [|a x IH]; cbn [String.append rstrip_by].
  - now rewrite Hc.
  - rewrite IH. destruct x; reflexivity.
Qed.

Lemma isspace_lower_char (c : ascii) : isspace (lower_char c) = isspace c.
Proof. destruct c as [[] [] [] [] [] [] [] []]; reflexivity. Qed.

(** What [strip] leaves starts with a character that is no whitespace. *)
Lemma strip_head (s : string) :
  strip s = EmptyString \/
  exists a r, strip s = String a r /\ isspace a = false.
Proof.
  unfold strip.
  assert (Hl : lstrip_by isspace s = EmptyString \/
               exists a r, lstrip_by isspace s = String a r /\
                           isspace a = false).
  { induction s as [|c s IH]; [now left|].
    cbn [lstrip_by]. destruct (isspace c) eqn:E; [exact IH|].
    right. exists c, s. split; [reflexivity|exact E]. }
  destruct Hl as [->|(a & r & -> & Ha)]; [now left|].
  right. cbn [rstrip_by]. rewrite Ha.
  destruct (rstrip_by isspace r); eexists _, _; (split; [reflexivity|exact Ha]).
Qed.

Lemma jpg_does_not_prefix_json (s : string) :
  s <> EmptyString ->
  startswith (lower (s ++ ".json")) (lower (strip (s ++ ".jpg"))) = false.
Proof.
  intros Hs. destruct s as [|c s]; [contradiction|].
  destruct (isspace c) eqn:Hc.
  - destruct (strip_head (String c s ++ ".jpg")) as [E|(a & r & E & Ha)].
    + exfalso. unfold strip in E. cbn [String.append lstrip_by] in E.
      rewrite Hc in E.
      assert (Hend : forall x : string,
                exists y, lstrip_by isspace (x ++ ".jpg") = y ++ "g").
      { induction x as [|b x IH]; [exists ".jp"; reflexivity|].
        cbn [String.append lstrip_by]. destruct (isspace b); [exact IH|].
        exists (String b (x ++ ".jp")). cbn [String.append].
        now rewrite str_app_assoc. }
      destruct (Hend s) as [y Hy]. rewrite Hy in E.
      rewrite (rstrip_by_nonspace_end isspace y "g" eq_refl) in E.
      destruct y; discriminate E.
    + rewrite E. cbn [String.append lower startswith].
      destruct (Ascii.eqb_spec (lower_char c) (lower_char a)) as [Heq|];
        [|reflexivity].
      exfalso. pose proof (isspace_lower_char c) as H1.
      pose proof (isspace_lower_char a) as H2. congruence.
  - assert (Hl : lstrip_by isspace (String c s ++ ".jpg")
                 = String c s ++ ".jpg")
      by (cbn [String.append lstrip_by]; now rewrite Hc).
    unfold strip. rewrite Hl. clear Hl.
    generalize (String c s) as s0. intros s0.
    replace (s0 ++ ".jpg") with ((s0 ++ ".jp") ++ "g")
      by now rewrite str_app_assoc.
    rewrite (rstrip_by_nonspace_end isspace _ "g" eq_refl).
    rewrite str_app_assoc. change (".jp" ++ "g") with ".jpg".
    rewrite !lower_app, startswith_app_same. reflexivity.
Qed.

(** X5: the name a [.json] sidecar is moved to after the rename, the stem
    of the new file followed by [.json], is not one [find_matching_json]
    accepts for the renamed file: a later search for the sidecar of the
    [.jpg] file never returns the renamed sidecar. *)
Theorem renamed_sidecar_is_not_matched `{Platform} (file_path old_json : path)
  (w : world) :
  name file_path <> EmptyString ->
  suffix old_json = ".json" ->
  exists new_file,
    with_suffix file_path ".jpg" = Ok new_file /\
    let new_json :=
      mkpath (parent new_file) (stem new_file ++ suffix old_json) in
    find_matching_json new_file w <> Ok (Some new_json, w).
Proof.
  intros Hn Hsfx.
  exists (mkpath (parent file_path) (stem file_path ++ ".jpg")).
  split.
  { unfold with_suffix.
    destruct (String.eqb_spec (name file_path) EmptyString);
      [contradiction|reflexivity]. }
  cbv zeta. rewrite find_matching_json_run, Hsfx.
  destruct (find _ _) as [entry|] eqn:Hfind; cbn [option_map];
    [|discriminate].
  intros [= Hentry]. apply find_some in Hfind. destruct Hfind as [_ Hq].
  subst entry. unfold qualifies in Hq. apply andb_prop in Hq.
  destruct Hq as [_ Hq]. cbn [name parent] in Hq.
  destruct (jpg_name_parts (parent file_path) (stem file_path)
              (stem_nonempty file_path Hn)) as [Hs _].
  cbv zeta in Hs. rewrite Hs in Hq.
  rewrite (jpg_does_not_prefix_json _ (stem_nonempty file_path Hn)) in Hq.
  discriminate.
Qed.

Lemma renamed_sidecar_is_not_matched_witness :
  let file_path := mkpath photos_2019 "IMG.heic" in
  let old_json := mkpath photos_2019 "IMG.heic.json" in
  let w := Sim.mkstate [(photos_2019, ["IMG.jpg"; "IMG.json"])] [] in
  suffix old_json = ".json" /\
  find_matching_json (H := padding) (mkpath photos_2019 "IMG.jpg") w
    = Ok (None, w) /\
  exists new_file,
    with_suffix file_path ".jpg" = Ok new_file /\
    let new_json :=
      mkpath (parent new_file) (stem new_file ++ suffix old_json) in
    find_matching_json (H := padding) new_file w <> Ok (Some new_json, w).
Proof.
  intros file_path old_json w.
  split; [reflexivity|]. split; [reflexivity|].
  apply (renamed_sidecar_is_not_matched (H := padding) file_path old_json w);
    [discriminate|reflexivity].
Defined.

(** ** The recursion of [update_exif] *)

(** X6: the retry after a rename has no bound of its own.  On a platform
    where every write is answered with a format mismatch and every move
    succeeds, a file whose sidecar gives the date is renamed and written
    again until the recursion depth is used up: [update_exif] raises
    [RecursionError], whatever depth it starts with, and returns no
    outcome. *)
Theorem persistent_mismatch_ends_in_RecursionError `{Platform}
  (json_data : pyval) (date_str : string) :
  (forall cmd w, exists result w1,
      subprocess_run cmd w = Ok (result, w1) /\
      format_mismatch (strip (stderr result)) = true) ->
  (forall src dst w, exists w1, shutil_move src dst w = Ok (tt, w1)) ->
  sidecar_date json_data = Ok (Some date_str) ->
  date_str <> EmptyString ->
  (forall file_path, exists cmd,
      write_command date_str json_data file_path = Ok cmd) ->
  forall depth file_path w,
    name file_path <> EmptyString ->
    update_exif depth file_path json_data w = Raise RecursionError.
Proof.
  intros Hrun Hmove Hjson Hne Hcmd depth.
  induction depth as [|depth IH]; intros file_path w Hname; [reflexivity|].
  rewrite update_exif_eq. unfold bind_io at 1 2 3, lift.
  rewrite resolve_date_eq, Hjson. cbn [bind].
  rewrite (opt_truthy_Some _ Hne). cbn [negb].
  destruct (Hcmd file_path) as [cmd ->].
  destruct (Hrun cmd w) as (result & w1 & -> & Hmis).
  unfold after_write. rewrite Hmis.
  set (new_file := mkpath (parent file_path) (stem file_path ++ ".jpg")).
  assert (Hwith : with_suffix file_path ".jpg" = Ok new_file).
  { unfold with_suffix.
    destruct (String.eqb_spec (name file_path) EmptyString);
      [contradiction|reflexivity]. }
  assert (Hnew : name new_file <> EmptyString)
    by (subst new_file; cbn [name]; destruct (stem file_path); discriminate).
  unfold rename_to_jpg, bind_io, lift, ret. rewrite Hwith.
  destruct (Hmove file_path new_file w1) as [w2 ->].
  destruct (truthy json_data).
  - rewrite find_matching_json_run.
    destruct (find _ _) as [entry|]; cbn [option_map].
    + match goal with
      | |- match match shutil_move ?a ?b ?c with _ => _ end with _ => _ end = _
        => destruct (Hmove a b c) as [w3 ->]
      end.
      apply IH, Hnew.
    + apply IH, Hnew.
  - apply IH, Hnew.
Qed.

Lemma persistent_mismatch_ends_in_RecursionError_witness :
  let json_data := sidecar_taken [("timestamp", PInt 1674765569)] in
  update_exif (H := stubborn) 50 (mkpath photos "IMG.heic") json_data tt
  = Raise RecursionError.
Proof.
  intros json_data.
  apply (persistent_mismatch_ends_in_RecursionError (H := stubborn)
           json_data "2023:01:26 20:39:29").
  - intros cmd w. exists answer_mismatch, w. split; reflexivity.
  - intros src dst w. exists w. reflexivity.
  - reflexivity.
  - discriminate.
  - intros file_path. eexists. reflexivity.
  - discriminate.
Defined.

Lemma opt_truthy_inv (o : option string) :
  opt_truthy o = true -> exists d, o = Some d /\ d <> EmptyString.
Proof.
  destruct o as [d|]; [|discriminate]. cbn [opt_truthy]. intros H.
  exists d. split; [reflexivity|].
  destruct (String.eqb_spec d EmptyString); [discriminate|assumption].
Qed.

Lemma str_contains_nonempty (sub s : string) :
  sub <> EmptyString -> str_contains sub s = true -> s <> EmptyString.
Proof.
  intros Hsub H ->. cbn in H. destruct sub; [contradiction|discriminate].
Qed.

(** X7: whatever [update_exif] returns, after any number of renames: an
    UPDATED outcome carries the date and no error text; a FAILED outcome
    carries the date and an error text that is not empty; a SKIPPED
    outcome carries an error text that is not empty. *)
Theorem outcome_carries_its_reason `{Platform} (depth : nat)
  (file_path : path) (json_data : pyval) (w w' : world)
  (st : status) (date_used error : option string) :
  update_exif depth file_path json_data w = Ok ((st, date_used, error), w') ->
  match st with
  | UPDATED =>
      (exists d, date_used = Some d /\ d <> EmptyString) /\ error = None
  | FAILED =>
      (exists d, date_used = Some d /\ d <> EmptyString) /\
      exists e, error = Some e /\ e <> EmptyString
  | SKIPPED => exists e, error = Some e /\ e <> EmptyString
  end.
Proof.
  revert file_path w.
  induction depth as [|depth IH]; intros file_path w; [discriminate|].
  rewrite update_exif_eq. unfold bind_io at 1 2 3, lift.
  destruct (resolve_date json_data file_path) as [resolved|e]; [|discriminate].
  destruct (opt_truthy resolved) eqn:Hres; cbn [negb].
  2: { unfold ret. intros [= <- <- <- <-].
       eexists. split; [reflexivity|discriminate]. }
  destruct (opt_truthy_inv resolved Hres) as (d & -> & Hd).
  destruct (write_command d json_data file_path) as [cmd|e]; [|discriminate].
  destruct (subprocess_run cmd w) as [[result w1]|e]; [|discriminate].
  unfold after_write.
  destruct (format_mismatch _).
  { unfold bind_io.
    destruct (rename_to_jpg file_path json_data w1) as [[new_file w2]|e];
      [|discriminate].
    apply IH. }
  destruct (str_contains "OtherImageStart" _) eqn:Hother.
  { unfold ret. intros [= <- <- <- <-].
    eexists. split; [reflexivity|].
    apply (str_contains_nonempty "OtherImageStart"); [discriminate|exact Hother]. }
  destruct (negb (returncode result =? 0)).
  { unfold ret. intros [= <- <- <- <-].
    split; [exists d; split; [reflexivity|exact Hd]|].
    eexists. split; [reflexivity|].
    destruct (String.eqb_spec (strip (stderr result)) EmptyString);
      [discriminate|assumption]. }
  unfold bind_io.
  destruct (subprocess_run _ w1) as [[validate w2]|e]; [|discriminate].
  destruct (negb _); unfold ret; intros [= <- <- <- <-].
  - split; [exists d; split; [reflexivity|exact Hd]|].
    eexists. split; [reflexivity|discriminate].
  - split; [exists d; split; [reflexivity|exact Hd]|reflexivity].
Qed.

Lemma outcome_carries_its_reason_witness :
  let date_str := "2019:01:01 12:00:00" in
  let w := Sim.mkstate [(photos_2019, ["IMG.heic"; "IMG.heic.json"])]
             [answer_mismatch; mkcompleted 1 "" ""] in
  update_exif (H := padding) 2 (mkpath photos_2019 "IMG.heic")
    (sidecar_taken []) w
  = Ok ((FAILED, Some date_str, Some "Exiftool failed"),
        Sim.mkstate [(photos_2019, ["IMG.jpg"; "IMG.json"])] []) /\
  ((exists d, Some date_str = Some d /\ d <> EmptyString) /\
   exists e, Some "Exiftool failed" = Some e /\ e <> EmptyString).
Proof.
  intros date_str w.
  split; [reflexivity|].
  apply (outcome_carries_its_reason (H := padding) 2
           (mkpath photos_2019 "IMG.heic") (sidecar_taken []) w
           (Sim.mkstate [(photos_2019, ["IMG.jpg"; "IMG.json"])] [])
           FAILED (Some date_str) (Some "Exiftool failed")).
  reflexivity.
Defined.

(** X8: a sidecar whose JSON value is truthy but is not an object (an
    array, a string, a number) never reaches the tool: once the date is
    resolved, [json_data.get] raises [AttributeError] before anything is
    run. *)
Theorem non_object_sidecar_raises `{Platform} (depth : nat)
  (json_data : pyval) (file_path : path) (w : world) (date_str : string) :
  truthy json_data = true ->
  (forall d, json_data <> PDict d) ->
  resolve_date json_data file_path = Ok (Some date_str) ->
  date_str <> EmptyString ->
  update_exif (S depth) file_path json_data w = Raise AttributeError.
Proof.
  intros Htruthy Hobj Hdate Hne.
  rewrite update_exif_eq. unfold bind_io at 1 2, lift.
  rewrite Hdate, (opt_truthy_Some _ Hne). cbn [negb].
  unfold write_command. rewrite Htruthy.
  destruct json_data; try reflexivity.
  exfalso. exact (Hobj d eq_refl).
Qed.

Lemma non_object_sidecar_raises_witness :
  let json_data := PList [PStr "not"; PStr "an object"] in
  let file_path := mkpath photos "IMG_20230126_203929.jpg" in
  let w := Sim.mkstate [(photos, ["IMG_20230126_203929.jpg"])]
             [answer_written] in
  resolve_date (H := padding) json_data file_path
    = Ok (Some "2023:01:26 20:39:29") /\
  update_exif (H := padding) 1 file_path json_data w = Raise AttributeError.
Proof.
  intros json_data file_path w.
  split; [reflexivity|].
  apply (non_object_sidecar_raises (H := padding) 0 json_data file_path w
           "2023:01:26 20:39:29");
    [reflexivity | discriminate | reflexivity | discriminate].
Defined.

(** ** The run over a tree *)

Lemma endswith_json_lower (n : string) :
  endswith n ".json" = true -> endswith (lower n) ".json" = true.
Proof.
  induction n as [|c n IH]; [discriminate|].
  intros H. cbn [endswith] in H. apply orb_true_iff in H.
  destruct H as [H|H].
  - apply String.eqb_eq in H. rewrite H. reflexivity.
  - cbn [lower endswith]. rewrite (IH H). apply orb_true_r.
Qed.

(** X9: a file [find_matching_json] returns as a sidecar is never one of
    the media files [main] works on, so the tool is never pointed at a
    sidecar. *)
Theorem sidecar_is_not_a_media_file `{Platform} (file_path json_file : path)
  (w w1 : world) (listed : list path) :
  find_matching_json file_path w = Ok (Some json_file, w1) ->
  ~ In json_file (media_files listed).
Proof.
  rewrite find_matching_json_run.
  destruct (find _ _) as [entry|] eqn:Hfind; cbn [option_map];
    [|discriminate].
  intros [= <- _]. apply find_some in Hfind. destruct Hfind as [_ Hq].
  unfold qualifies in Hq. apply andb_prop in Hq. destruct Hq as [Hjson _].
  unfold media_files. intros Hin. apply filter_In in Hin.
  destruct Hin as [_ Hmedia]. cbn [name] in Hmedia.
  rewrite (endswith_json_lower entry Hjson) in Hmedia. discriminate.
Qed.

Lemma sidecar_is_not_a_media_file_witness :
  let file_path := mkpath photos "IMG.jpg" in
  let json_file := mkpath photos "img.JPG.json" in
  let w := Sim.mkstate [(photos, ["IMG.jpg"; "img.JPG.json"])] [] in
  media_files [file_path; json_file] = [file_path] /\
  ~ In json_file (media_files [file_path; json_file]).
Proof.
  intros file_path json_file w.
  split; [reflexivity|].
  apply (sidecar_is_not_a_media_file (H := padding) file_path json_file w w
           [file_path; json_file]).
  reflexivity.
Defined.

(** X10: a file whose name ends in [.json] only when case is ignored, such
    as [IMG.jpg.JSON], falls between the two: [main] leaves it out of the
    media files, and [find_matching_json], whose pattern is matched with
    case, never returns it as a sidecar. *)
Theorem upper_case_json_is_ignored `{Platform} (f : path) :
  endswith (lower (name f)) ".json" = true ->
  endswith (name f) ".json" = false ->
  (forall listed, ~ In f (media_files listed)) /\
  (forall file_path w w1,
     find_matching_json file_path w <> Ok (Some f, w1)).
Proof.
  intros Hlower Hexact. split.
  - intros listed Hin. unfold media_files in Hin. apply filter_In in Hin.
    destruct Hin as [_ Hmedia]. rewrite Hlower in Hmedia. discriminate.
  - intros file_path w w1. rewrite find_matching_json_run.
    destruct (find _ _) as [entry|] eqn:Hfind; cbn [option_map];
      [|discriminate].
    intros [= <- _]. apply find_some in Hfind. destruct Hfind as [_ Hq].
    unfold qualifies in Hq. apply andb_prop in Hq. destruct Hq as [Hjson _].
    cbn [name] in Hexact. congruence.
Qed.

Lemma upper_case_json_is_ignored_witness :
  let f := mkpath photos "IMG.jpg.JSON" in
  let w := Sim.mkstate [(photos, ["IMG.jpg"; "IMG.jpg.JSON"])] [] in
  find_matching_json (H := padding) (mkpath photos "IMG.jpg") w
    = Ok (None, w) /\
  (forall listed, ~ In f (media_files listed)) /\
  (forall file_path w w1,
     find_matching_json (H := padding) file_path w <> Ok (Some f, w1)).
Proof.
  intros f w.
  split; [reflexivity|].
  apply (upper_case_json_is_ignored (H := padding) f); reflexivity.
Defined.

Lemma count_status_counted (st : status) (c : counts) :
  counted (count_status st c) = S (counted c).
Proof. destruct st; unfold counted; cbn; lia. Qed.

Lemma file_step_counted `{Platform} `{!Loader} (depth : nat)
  (file_path : path) (w w' : world) (c c' : counts) :
  file_step depth file_path w c w' c' -> counted c' = S (counted c).
Proof.
  intros Hstep. destruct Hstep.
  - unfold counted, count_failed. cbn. lia.
  - apply count_status_counted.
  - unfold counted, count_failed. cbn. lia.
Qed.

(** The loop body has a rule for every file and every world. *)
Lemma file_step_total `{Platform} `{!Loader} (depth : nat)
  (file_path : path) (w : world) (c : counts) :
  exists w' c', file_step depth file_path w c w' c'.
Proof.
  pose proof (find_matching_json_run file_path w) as Hfind.
  destruct (option_map _ _) as [json_file|] eqn:Hopt.
  - destruct (json_load json_file w) as [json_data|e] eqn:Hload.
    + destruct (update_exif depth file_path json_data w)
        as [[[[st d] err] w2]|e] eqn:Hup.
      * exists w2, (count_status st c).
        exact (step_outcome depth file_path w w w2 c (Some json_file)
                 json_data st d err Hfind Hload Hup).
      * exists w, (count_failed c).
        exact (step_exception depth file_path w w w c (Some json_file)
                 json_data e Hfind Hload Hup).
    + exists w, (count_failed c).
      exact (step_unreadable depth file_path w w c json_file e Hfind Hload).
  - destruct (update_exif depth file_path PNone w)
      as [[[[st d] err] w2]|e] eqn:Hup.
    + exists w2, (count_status st c).
      exact (step_outcome depth file_path w w w2 c None PNone st d err
               Hfind eq_refl Hup).
    + exists w, (count_failed c).
      exact (step_exception depth file_path w w w c None PNone e
               Hfind eq_refl Hup).
Qed.

(** X11: the loop of [main] goes through every file whatever happens to
    each one (a sidecar that cannot be read, an exception out of
    [update_exif]), and it counts every file exactly once: at the end
    updated, skipped and failed add up to what they were plus the number
    of files. *)
Theorem main_loop_counts_every_file `{Platform} `{!Loader} (depth : nat)
  (files : list path) (w : world) (c : counts) :
  (exists w' c', main_loop depth files w c w' c') /\
  (forall w' c', main_loop depth files w c w' c' ->
                 counted c' = (counted c + List.length files)%nat).
Proof.
  split.
  - revert w c. induction files as [|file_path rest IH]; intros w c.
    + exists w, c. constructor.
    + destruct (file_step_total depth file_path w c) as (w1 & c1 & Hstep).
      destruct (IH w1 c1) as (w2 & c2 & Hloop).
      exists w2, c2. exact (loop_next depth file_path rest w w1 w2 c c1 c2
                              Hstep Hloop).
  - intros w' c' Hloop. induction Hloop as [|? ? ? ? ? ? ? ? Hstep Hloop IH].
    + cbn. lia.
    + rewrite IH, (file_step_counted _ _ _ _ _ _ Hstep). cbn. lia.
Qed.

(** X12: when the sidecar of a file cannot be loaded, the turn of the loop
    counts the file as failed and goes on to the next file: nothing is
    changed, [update_exif] is not called, and a date in the file name or
    the folder is not used. *)
Theorem unreadable_sidecar_is_failed `{Platform} `{!Loader} (depth : nat)
  (file_path json_file : path) (w w1 w' : world) (c c' : counts) (e : exn) :
  find_matching_json file_path w = Ok (Some json_file, w1) ->
  json_load json_file w1 = Raise e ->
  file_step depth file_path w c w' c' ->
  w' = w /\ c' = count_failed c.
Proof.
  intros Hfind Hload Hstep.
  assert (Hw : w1 = w).
  { rewrite find_matching_json_run in Hfind. now injection Hfind. }
  destruct Hstep as [? ? ? ? ? Hfind' _
                    |? ? ? ? json_file' ? ? ? ? Hfind' Hloaded _
                    |? ? ? ? json_file' ? ? Hfind' Hloaded _].
  - rewrite Hfind in Hfind'. injection Hfind' as _ <-. now subst.
  - exfalso. rewrite Hfind in Hfind'. injection Hfind' as <- <-.
    cbn [loaded] in Hloaded. congruence.
  - exfalso. rewrite Hfind in Hfind'. injection Hfind' as <- <-.
    cbn [loaded] in Hloaded. congruence.
Qed.

Lemma unreadable_sidecar_is_failed_witness :
  let file_path := mkpath photos_2019 "broken.jpg" in
  let json_file := mkpath photos_2019 "broken.jpg.json" in
  let w : world (Platform := padding) :=
    Sim.mkstate [(photos_2019, ["broken.jpg"; "broken.jpg.json"])]
      [answer_written] in
  let c := mkcounts 3 1 0 in
  file_step (H := padding) (H0 := sample_loader) 100 file_path
    w c w (mkcounts 3 1 1) /\
  (w = w /\ mkcounts 3 1 1 = count_failed c).
Proof.
  intros file_path json_file w c.
  assert (Hstep : file_step (H := padding) (H0 := sample_loader) 100
                    file_path w c w (mkcounts 3 1 1)).
  { exact (step_unreadable (H := padding) (H0 := sample_loader) 100
             file_path w w c json_file ValueError eq_refl eq_refl). }
  split; [exact Hstep|].
  exact (unreadable_sidecar_is_failed (H := padding)
           (H0 := sample_loader) 100 file_path json_file w w w c
           (mkcounts 3 1 1) ValueError eq_refl eq_refl Hstep).
Defined.

(** ** What the sidecar tier accepts *)

(** X13: a date the sidecar tier returns is always the rendering of a date
    and time of the calendar: the month is 1 to 12, the day exists in that
    month of that year, the time is a time of day.  A [formatted] text such
    as 31 Feb or 25 o'clock is not turned into a date. *)
Theorem sidecar_date_is_a_calendar_date `{Platform} (json_data : pyval)
  (s : string) :
  sidecar_date json_data = Ok (Some s) ->
  exists dt,
    s = strftime strftime_pads_year dt /\
    1 <= year dt <= 9999 /\ 1 <= month dt <= 12 /\
    1 <= day dt <= days_in_month (year dt) (month dt) /\
    0 <= hour dt <= 23 /\ 0 <= minute dt <= 59 /\ 0 <= second dt <= 59.
Proof.
  intros Hs. destruct (sidecar_date_valid json_data s Hs) as (dt & Hv & ->).
  exists dt. split; [reflexivity|]. exact (valid_datetime_elim dt Hv).
Qed.

Lemma sidecar_date_is_a_calendar_date_witness :
  sidecar_date (H := padding)
    (sidecar_taken [("formatted", PStr "31 Feb 2023 10:00:00");
                    ("timestamp", PStr "1709164800")])
  = Ok (Some "2024:02:29 00:00:00") /\
  exists dt,
    "2024:02:29 00:00:00" = strftime true dt /\
    1 <= year dt <= 9999 /\ 1 <= month dt <= 12 /\
    1 <= day dt <= days_in_month (year dt) (month dt) /\
    0 <= hour dt <= 23 /\ 0 <= minute dt <= 59 /\ 0 <= second dt <= 59.
Proof.
  split; [reflexivity|].
  apply (sidecar_date_is_a_calendar_date (H := padding)
           (sidecar_taken [("formatted", PStr "31 Feb 2023 10:00:00");
                           ("timestamp", PStr "1709164800")])).
  reflexivity.
Defined.

Lemma MONTHS_get_missing (key : string) (d : list (string * Z)) :
  ~ In key (map fst d) -> MONTHS_get key 0 d = 0.
Proof.
  induction d as [|[k v] d IH]; [reflexivity|].
  cbn [map fst In MONTHS_get]. intros Hnot.
  destruct (String.eqb_spec k key) as [E|_]; [tauto|].
  apply IH. tauto.
Qed.

(** X14: the month of a [formatted] text is looked up in [MONTHS] with
    case and in full: a second field that is not one of the twelve
    abbreviations (jan, JAN, January, 01) gives month 0, the date is
    refused, and the function returns none. *)
Theorem unknown_month_is_rejected `{Platform} (s : string) :
  ~ In (nth 1 (split_ws (strip s)) EmptyString) (map fst MONTHS) ->
  parse_google_formatted (PStr s) = None.
Proof.
  intros Hmonth. unfold parse_google_formatted, parse_google_formatted_body.
  cbn [bind]. destruct (_ <? 4)%nat; [reflexivity|].
  destruct (int_of_str (nth 0 _ _)) as [d0|e]; [|reflexivity].
  cbn [bind]. rewrite (MONTHS_get_missing _ _ Hmonth).
  destruct (int_of_str (nth 2 _ _)) as [y0|e]; [|reflexivity].
  cbn [bind].
  destruct (unpack3_int _) as [[[h0 mi0] s0]|e]; [|reflexivity].
  cbn [bind]. unfold datetime_new, valid_datetime.
  cbn [year month day].
  change (1 <=? 0) with false.
  rewrite andb_false_r. reflexivity.
Qed.

Lemma unknown_month_is_rejected_witness :
  ~ In (nth 1 (split_ws (strip "26 jan 2023 20:39:29")) EmptyString)
       (map fst MONTHS) /\
  parse_google_formatted (H := padding) (PStr "26 jan 2023 20:39:29") = None.
Proof.
  assert (Hnot : ~ In (nth 1 (split_ws (strip "26 jan 2023 20:39:29"))
                         EmptyString) (map fst MONTHS)).
  { cbn. intros H. repeat (destruct H as [H|H]; [discriminate H|]). exact H. }
  split; [exact Hnot|].
  apply (unknown_month_is_rejected (H := padding) "26 jan 2023 20:39:29").
  exact Hnot.
Defined.

(** ** The text [parse_google_formatted] reads *)

Lemma split_ws_lstrip (s : string) :
  split_ws (lstrip_by isspace s) = split_ws s.
Proof.
  induction s as [|c s IH]; [reflexivity|].
  cbn [lstrip_by]. destruct (isspace c) eqn:E; [|reflexivity].
  rewrite IH. cbn [split_ws]. now rewrite E.
Qed.

Lemma rstrip_by_empty (sp : ascii -> bool) (s : string) :
  rstrip_by sp s = EmptyString ->
  s = EmptyString \/ exists c t, s = String c t /\ sp c = true.
Proof.
  destruct s as [|c t]; [now left|]. cbn [rstrip_by]. intros H. right.
  exists c, t. split; [reflexivity|].
  destruct (rstrip_by sp t); [|discriminate H].
  destruct (sp c); [reflexivity|discriminate H].
Qed.

Lemma rstrip_by_head (sp : ascii -> bool) (s : string) (c : ascii)
  (r : string) :
  rstrip_by sp s = String c r -> exists t, s = String c t.
Proof.
  destruct s as [|a t]; [discriminate|]. cbn [rstrip_by]. intros H.
  exists t. destruct (rstrip_by sp t).
  - destruct (sp a); [discriminate H|]. now injection H as ->.
  - now injection H as ->.
Qed.

Lemma split_ws_rstrip (s : string) :
  split_ws (rstrip_by isspace s) = split_ws s.
Proof.
  induction s as [|c s IH]; [reflexivity|].
  cbn [rstrip_by].
  destruct (rstrip_by isspace s) as [|c' r] eqn:Hr.
  - cbn [split_ws] in IH.
    destruct (rstrip_by_empty _ _ Hr) as [->|(c' & t & -> & Hc')].
    + destruct (isspace c) eqn:Hc; cbn [split_ws]; now rewrite Hc.
    + destruct (isspace c) eqn:Hc.
      * cbn [split_ws]. now rewrite Hc.
      * cbn [split_ws] in *. rewrite Hc, Hc' in *. now rewrite <- IH.
  - destruct (rstrip_by_head _ _ _ _ Hr) as [t ->].
    cbn [split_ws] in *. destruct (isspace c); [exact IH|].
    destruct (isspace c').
    + now rewrite IH.
    + now rewrite IH.
Qed.

Lemma split_ws_strip (s : string) : split_ws (strip s) = split_ws s.
Proof. unfold strip. now rewrite split_ws_rstrip, split_ws_lstrip. Qed.

Lemma split_ws_space (s : string) : split_ws (" " ++ s) = split_ws s.
Proof. reflexivity. Qed.

(** Where a word may end: at the end of the text or before whitespace. *)
Lemma split_ws_word (t rest : string) :
  is_word t = true ->
  rest = EmptyString \/ (exists c r, rest = String c r /\ isspace c = true) ->
  split_ws (t ++ rest) = t :: split_ws rest.
Proof.
  unfold is_word. intros Hw Hrest.
  induction t as [|c t IH]; [discriminate Hw|].
  cbn [String.eqb negb andb list_ascii_of_string forallb] in Hw.
  apply andb_prop in Hw. destruct Hw as [Hc Ht].
  apply negb_true_iff in Hc.
  destruct t as [|c2 t].
  - cbn [String.append split_ws]. rewrite Hc.
    destruct Hrest as [->|(c' & r & -> & Hc')]; [reflexivity|].
    now rewrite Hc'.
  - assert (Hc2 : isspace c2 = false).
    { cbn [list_ascii_of_string forallb] in Ht. apply andb_prop in Ht.
      destruct Ht as [Ht _]. now apply negb_true_iff in Ht. }
    change (String c (String c2 t) ++ rest)
      with (String c (String c2 t ++ rest)).
    cbn [split_ws]. rewrite Hc.
    change (String c2 t ++ rest) with (String c2 (t ++ rest)) at 1.
    cbv iota. rewrite Hc2.
    rewrite IH; [reflexivity|]. exact Ht.
Qed.

Lemma isdigit_not_space (c : ascii) : isdigit c = true -> isspace c = false.
Proof.
  destruct c as [[] [] [] [] [] [] [] []]; intros H;
    try discriminate H; reflexivity.
Qed.

Lemma isdigit_not_colon (c : ascii) :
  isdigit c = true -> Ascii.eqb c ":" = false.
Proof.
  destruct c as [[] [] [] [] [] [] [] []]; intros H;
    try discriminate H; reflexivity.
Qed.

Lemma int_format_1 (n : Z) :
  1 <= n <= 9999 ->
  int_of_str (format_0d 1 n) = Ok n /\ is_word (format_0d 1 n) = true.
Proof.
  intros Hn.
  assert (Hall : forallb (fun n =>
            match int_of_str (format_0d 1 n) with
            | Ok m => (m =? n) && is_word (format_0d 1 n)
            | Raise _ => false
            end) (map Z.of_nat (seq 0 (Z.to_nat 10000))) = true)
    by (vm_compute; reflexivity).
  rewrite forallb_forall in Hall.
  specialize (Hall n (in_range 10000 n ltac:(lia))).
  destruct (int_of_str (format_0d 1 n)) as [m|e]; [|discriminate Hall].
  apply andb_prop in Hall. destruct Hall as [Hm Hw].
  apply Z.eqb_eq in Hm. subst m. split; [reflexivity|exact Hw].
Qed.

Lemma int_format_2 (n : Z) :
  0 <= n <= 99 -> int_of_str (format_0d 2 n) = Ok n.
Proof.
  intros Hn.
  assert (Hall : forallb (fun n =>
            match int_of_str (format_0d 2 n) with
            | Ok m => m =? n
            | Raise _ => false
            end) (map Z.of_nat (seq 0 (Z.to_nat 100))) = true)
    by (vm_compute; reflexivity).
  rewrite forallb_forall in Hall.
  specialize (Hall n (in_range 100 n ltac:(lia))).
  destruct (int_of_str (format_0d 2 n)) as [m|e]; [|discriminate Hall].
  apply Z.eqb_eq in Hall. now subst m.
Qed.

Lemma month_abbr_spec (m : Z) :
  1 <= m <= 12 ->
  MONTHS_get (month_abbr m) 0 MONTHS = m /\ is_word (month_abbr m) = true.
Proof. intros Hm. month_cases m; split; reflexivity. Qed.

(** The time of day: three two-digit fields between colons. *)
Lemma time_text_spec (h mi s : Z) :
  0 <= h <= 99 -> 0 <= mi <= 99 -> 0 <= s <= 99 ->
  let t := format_0d 2 h ++ ":" ++ format_0d 2 mi ++ ":" ++ format_0d 2 s in
  is_word t = true /\ unpack3_int (split_on ":" t) = Ok (h, mi, s).
Proof.
  intros Hh Hmi Hs t. subst t.
  pose proof (int_format_2 h Hh) as Ih.
  pose proof (int_format_2 mi Hmi) as Imi.
  pose proof (int_format_2 s Hs) as Is.
  destruct (format_2_digits h Hh) as (h1 & h2 & Eh & Dh).
  destruct (format_2_digits mi Hmi) as (i1 & i2 & Ei & Di).
  destruct (format_2_digits s Hs) as (s1 & s2 & Es & Ds).
  rewrite Eh in *. rewrite Ei in *. rewrite Es in *.
  cbn [forallb] in Dh, Di, Ds. split_andb.
  split.
  - unfold is_word.
    cbn [String.append String.eqb negb andb list_ascii_of_string forallb].
    repeat match goal with
           | H : isdigit ?c = true |- context [isspace ?c] =>
               rewrite (isdigit_not_space c H)
           end.
    reflexivity.
  - cbn [String.append split_on].
    repeat match goal with
           | H : isdigit ?c = true |- context [Ascii.eqb ?c ":"] =>
               rewrite (isdigit_not_colon c H)
           end.
    cbn [Ascii.eqb Bool.eqb split_on unpack3_int].
    rewrite Ih, Imi, Is. reflexivity.
Qed.

(** X15: the text [parse_google_formatted] does read: day, month
    abbreviation, year and time separated by single spaces, without a
    comma, alone or followed by whitespace and anything else (a time zone,
    say).  For every date and time of the calendar it returns the
    rendering of that date and time. *)
Theorem plain_text_is_parsed `{Platform} (dt : datetime) (tail : string) :
  valid_datetime dt = true ->
  tail = EmptyString \/ (exists c r, tail = String c r /\ isspace c = true) ->
  parse_google_formatted (PStr (plain_text dt ++ tail))
  = Some (strftime strftime_pads_year dt).
Proof.
  intros Hvalid Htail.
  destruct (valid_datetime_elim dt Hvalid) as (Hy & Hmo & Hd & Hh & Hmi & Hs).
  pose proof (month_length_bounds (is_leap (year dt))
                (month dt)) as Hlen.
  unfold days_in_month in Hd.
  destruct (int_format_1 (day dt)) as [Iday Wday]; [lia|].
  destruct (int_format_1 (year dt)) as [Iyear Wyear]; [lia|].
  destruct (month_abbr_spec (month dt) Hmo) as [Imonth Wmonth].
  destruct (time_text_spec (hour dt) (minute dt) (second dt))
    as [Wtime Itime]; try lia.
  cbv zeta in Wtime, Itime.
  set (time := format_0d 2 (hour dt) ++ ":" ++ format_0d 2 (minute dt) ++
               ":" ++ format_0d 2 (second dt)) in *.
  assert (Hparts : split_ws (strip (plain_text dt ++ tail)) =
            format_0d 1 (day dt) ::
            month_abbr (month dt) ::
            format_0d 1 (year dt) :: time :: split_ws tail).
  { rewrite split_ws_strip. unfold plain_text. fold time.
    rewrite !str_app_assoc.
    rewrite (split_ws_word _ _ Wday)
      by (right; eexists _, _; split; reflexivity).
    rewrite split_ws_space, (split_ws_word _ _ Wmonth)
      by (right; eexists _, _; split; reflexivity).
    rewrite split_ws_space, (split_ws_word _ _ Wyear)
      by (right; eexists _, _; split; reflexivity).
    rewrite split_ws_space.
    rewrite (split_ws_word _ _ Wtime Htail). reflexivity. }
  unfold parse_google_formatted, parse_google_formatted_body.
  cbn [bind]. rewrite Hparts. cbn [List.length Nat.ltb Nat.leb nth].
  rewrite Iday, Iyear, Imonth, Itime. cbn [bind].
  unfold datetime_new.
  replace (mkdatetime (year dt) (month dt)
             (day dt) (hour dt) (minute dt) (second dt))
    with dt by (destruct dt; reflexivity).
  rewrite Hvalid. reflexivity.
Qed.

Lemma plain_text_is_parsed_witness :
  let dt := mkdatetime 2024 2 29 8 5 0 in
  plain_text dt ++ " UTC" = "29 Feb 2024 08:05:00 UTC" /\
  parse_google_formatted (H := padding) (PStr (plain_text dt ++ " UTC"))
  = Some "2024:02:29 08:05:00".
Proof.
  intros dt. split; [reflexivity|].
  apply (plain_text_is_parsed (H := padding) dt " UTC");
    [reflexivity|right; exists " "%char, "UTC"; split; reflexivity].
Defined.

(** ** The two sub-fields of the capture time *)

Lemma ymd2ord_range (y m d : Z) :
  1 <= y <= 9999 -> 1 <= m <= 12 -> 1 <= d <= days_in_month y m ->
  1 <= ymd2ord y m d <= 3652059.
Proof.
  intros Hy Hm Hd. unfold ymd2ord. unfold days_in_month in Hd.
  pose proof (day_of_year_bounds (is_leap y) m d Hm Hd) as Hdoy.
  pose proof (days_before_year_next y 10000 ltac:(lia)) as Hnext.
  change (days_before_year 10000) with 3652059 in Hnext.
  assert (Hlow : 0 <= days_before_year y).
  { unfold days_before_year. cbv zeta. Z.div_mod_to_equations. lia. }
  lia.
Qed.

(** [utcfromtimestamp] undoes [timegm] on every date and time of the
    calendar. *)
Lemma utcfromtimestamp_timegm (dt : datetime) :
  valid_datetime dt = true -> utcfromtimestamp (timegm dt) = Ok dt.
Proof.
  intros Hvalid.
  destruct (valid_datetime_elim dt Hvalid) as (Hy & Hmo & Hd & Hh & Hmi & Hs).
  pose proof (ymd2ord_range _ _ _ Hy Hmo Hd) as Hord.
  assert (Hrange : MIN_TIMESTAMP <= timegm dt <= MAX_TIMESTAMP)
    by (unfold MIN_TIMESTAMP, MAX_TIMESTAMP, timegm; lia).
  destruct (utcfromtimestamp_in_range _ Hrange) as [dt' Hdt'].
  destruct (utcfromtimestamp_spec _ _ Hdt') as [Hvalid' Hgm].
  rewrite Hdt'. f_equal. now apply timegm_inj.
Qed.

Lemma strftime_nonempty (pads_year : bool) (dt : datetime) :
  strftime pads_year dt <> EmptyString.
Proof.
  unfold strftime. destruct (format_0d _ (year dt)); discriminate.
Qed.

(** X16: the two sub-fields of [photoTakenTime] agree.  When the
    [formatted] text parses to a date and time of the calendar and the
    [timestamp] is the number of seconds from the epoch to that date and
    time in UTC, [resolve_date] returns the same string with the
    [formatted] sub-field as without it. *)
Theorem formatted_and_timestamp_agree `{Platform} (formatted timestamp : pyval)
  (dt : datetime) (file_path : path) :
  valid_datetime dt = true ->
  truthy formatted = true ->
  parse_google_formatted formatted = Some (strftime strftime_pads_year dt) ->
  truthy timestamp = true ->
  py_int timestamp = Ok (timegm dt) ->
  resolve_date
    (sidecar_taken [("formatted", formatted); ("timestamp", timestamp)])
    file_path = Ok (Some (strftime strftime_pads_year dt)) /\
  resolve_date (sidecar_taken [("timestamp", timestamp)]) file_path
    = Ok (Some (strftime strftime_pads_year dt)).
Proof.
  intros Hvalid Htf Hparse Htt Hint.
  pose proof (strftime_nonempty strftime_pads_year dt) as Hne.
  split.
  - rewrite resolve_date_eq. unfold sidecar_taken.
    erewrite sidecar_date_taken by reflexivity.
    unfold formatted_date. cbn [lookup String.eqb Ascii.eqb Bool.eqb].
    rewrite Htf, Hparse.
    destruct (String.eqb_spec (strftime strftime_pads_year dt) EmptyString);
      [contradiction|reflexivity].
  - rewrite resolve_date_eq. unfold sidecar_taken.
    erewrite sidecar_date_taken by reflexivity.
    unfold formatted_date. cbn [lookup String.eqb Ascii.eqb Bool.eqb].
    rewrite Htt, Hint. cbn [bind].
    rewrite (utcfromtimestamp_timegm dt Hvalid). reflexivity.
Qed.

Lemma formatted_and_timestamp_agree_witness :
  let formatted := PStr "26 Jan 2023 20:39:29" in
  let timestamp := PStr "1674765569" in
  let file_path := mkpath photos "IMG.jpg" in
  timegm (mkdatetime 2023 1 26 20 39 29) = 1674765569 /\
  resolve_date (H := padding)
    (sidecar_taken [("formatted", formatted); ("timestamp", timestamp)])
    file_path = Ok (Some "2023:01:26 20:39:29") /\
  resolve_date (H := padding) (sidecar_taken [("timestamp", timestamp)])
    file_path = Ok (Some "2023:01:26 20:39:29").
Proof.
  intros formatted timestamp file_path.
  split; [reflexivity|].
  apply (formatted_and_timestamp_agree (H := padding) formatted timestamp
           (mkdatetime 2023 1 26 20 39 29) file_path); reflexivity.
Defined.

(** ** A sidecar without a usable capture time *)

(** X17: a sidecar object whose [photoTakenTime] is null, a boolean or a
    number makes [resolve_date] raise [TypeError] at the test for the
    [formatted] key; the file name and the folder are not consulted. *)
Theorem scalar_photoTakenTime_raises `{Platform}
  (d : list (string * pyval)) (pt : pyval) (file_path : path) :
  lookup "photoTakenTime" d = Some pt ->
  (pt = PNone \/ (exists b, pt = PBool b) \/ (exists n, pt = PInt n) \/
   (exists f, pt = PFloat f)) ->
  resolve_date (PDict d) file_path = Raise TypeError.
Proof.
  intros Hpt Hscalar.
  assert (Hd : d <> []) by (intros ->; discriminate).
  unfold resolve_date. rewrite (truthy_dict d Hd).
  unfold py_in at 1, getitem at 1. rewrite Hpt. cbn [bind].
  destruct Hscalar as [->|[[b ->]|[[n ->]|[f ->]]]]; reflexivity.
Qed.

Lemma scalar_photoTakenTime_raises_witness :
  let d := [("title", PStr "IMG.jpg"); ("photoTakenTime", PNone)] in
  let file_path := mkpath photos "IMG_20230126_203929.jpg" in
  extract_date_from_filename file_path = Some "2023:01:26 20:39:29" /\
  resolve_date (H := padding) (PDict d) file_path = Raise TypeError.
Proof.
  intros d file_path. split; [reflexivity|].
  apply (scalar_photoTakenTime_raises (H := padding) d PNone file_path);
    [reflexivity|now left].
Defined.

(** X18: missing keys are no error.  A sidecar object without
    [photoTakenTime], or with a [photoTakenTime] object in which
    [formatted] and [timestamp] are each absent or falsy, leaves the date
    to the file name and then the folder. *)
Theorem missing_capture_time_falls_through `{Platform}
  (d : list (string * pyval)) (file_path : path) :
  (lookup "photoTakenTime" d = None \/
   exists pt,
     lookup "photoTakenTime" d = Some (PDict pt) /\
     match lookup "formatted" pt with
     | Some v => truthy v | None => false end = false /\
     match lookup "timestamp" pt with
     | Some v => truthy v | None => false end = false) ->
  resolve_date (PDict d) file_path = Ok (filename_or_folder file_path).
Proof.
  intros Hcase. rewrite resolve_date_eq.
  destruct Hcase as [Hnone|(pt & Hpt & Hf & Ht)].
  - unfold sidecar_date, py_in. rewrite Hnone.
    destruct (truthy (PDict d)); reflexivity.
  - rewrite (sidecar_date_taken d pt Hpt). unfold formatted_date.
    destruct (lookup "formatted" pt) as [v|]; [rewrite Hf|];
      (destruct (lookup "timestamp" pt) as [t|]; [rewrite Ht|]);
      reflexivity.
Qed.

Lemma missing_capture_time_falls_through_witness :
  let d := [("title", PStr "IMG.jpg");
            ("photoTakenTime", PDict [("timestamp", PStr "")])] in
  let file_path := mkpath photos_2019 "IMG.jpg" in
  resolve_date (H := padding) (PDict d) file_path
  = Ok (Some "2019:01:01 12:00:00").
Proof.
  intros d file_path.
  apply (missing_capture_time_falls_through (H := padding) d file_path).
  right. exists [("timestamp", PStr "")]. repeat split; reflexivity.
Defined.
